(** * Marketplace data and authorization model

    A shallow embedding of
    - the SQL migration (enumerated role, tables [profiles], [categories]
      and [products], their row-level security policies, the signup trigger
      [handle_new_user]), and
    - the client code that talks to these tables
      ([handleAddToCart] and [fetchProducts] of Dashboard.tsx,
      [uploadImage] and [handleSubmit] of AddProductDialog.tsx).

    SQL statements are functions on tables that return a [result]: a failed
    statement raises and the enclosing transaction leaves the database as it
    was.  A function of the database resolves the unqualified names of its
    body along its own search path.  Client functions return the requests
    they issue, the toast they show and the database after the call. *)

From Stdlib Require Import List String Ascii ZArith Bool Lia DecimalString.
Import ListNotations.
Local Open Scope string_scope.
Local Open Scope Z_scope.

Set Implicit Arguments.

(** ** Errors and the error monad *)

(** The ways a statement of the model can raise. *)
Inductive sql_error : Type :=
| undefined_object (name : string)
    (* "type [name] does not exist": the name resolves in no schema searched *)
| invalid_text_representation (ty value : string)
    (* a cast of [value] to the enumerated type [ty] *)
| unique_violation (constraint : string)
| foreign_key_violation (constraint : string)
| not_null_violation (column : string)
| numeric_value_out_of_range (column : string)
| rls_violation (table : string).
    (* "new row violates row-level security policy" *)

Inductive result (A : Type) : Type :=
| Ok (a : A)
| Raise (e : sql_error).
Arguments Ok {A} a.
Arguments Raise {A} e.

Definition bind {A B : Type} (m : result A) (k : A -> result B) : result B :=
  match m with
  | Ok a => k a
  | Raise e => Raise e
  end.

Notation "x <- m ;; k" := (bind m (fun x => k))
  (at level 61, m at next level, right associativity).

Definition guard (b : bool) (e : sql_error) : result unit :=
  if b then Ok tt else Raise e.

(** [mapM f l] applies a fallible function to every row, left to right, and
    raises at the first row that raises. *)
Fixpoint mapM {A B : Type} (f : A -> result B) (l : list A) : result (list B) :=
  match l with
  | [] => Ok []
  | a :: l' => b <- f a ;; bs <- mapM f l' ;; Ok (b :: bs)
  end.

(** A statement runs in a transaction: when it raises, the database is the one
    before the statement. *)
Definition transaction {S : Type} (stmt : S -> result S) (db : S)
  : S * option sql_error :=
  match stmt db with
  | Ok db' => (db', None)
  | Raise e => (db, Some e)
  end.

(** ** Schema *)

Definition uuid := string.
Definition timestamptz := Z.

(** [CREATE TYPE public.user_role AS ENUM ('buyer', 'seller')] *)
Inductive user_role : Type := buyer | seller.

(** Schemas.  The migration creates its one type in [public]:
    [CREATE TYPE public.user_role]. *)
Definition schema := string.

Definition created_types : list (schema * string) :=
  [("public", "user_role")].

Definition type_in_schema (sch : schema) (type_name : string) : bool :=
  existsb (fun t => String.eqb (fst t) sch && String.eqb (snd t) type_name)
          created_types.

(** An unqualified type name is looked up in [pg_catalog], which is always
    searched, and then in the schemas of the search path in force. *)
Definition type_resolves (search_path : list schema) (type_name : string)
  : bool :=
  existsb (fun sch => type_in_schema sch type_name)
          ("pg_catalog" :: search_path).

(** Input function of the enumerated type, which a cast [text::user_role]
    runs once the type name is resolved.  The labels are matched exactly; any
    other text raises. *)
Definition user_role_in (s : string) : result user_role :=
  if String.eqb s "buyer" then Ok buyer
  else if String.eqb s "seller" then Ok seller
  else Raise (invalid_text_representation "user_role" s).

(** The text matches the role enumeration. *)
Definition matches_enum (s : string) : bool :=
  String.eqb s "buyer" || String.eqb s "seller".

(** jsonb values of the signup metadata. *)
#[warnings="-register-all"]
Inductive jsonb : Type :=
| JNull
| JBool (b : bool)
| JNumber (n : Z)
| JString (s : string)
| JArray (items : list jsonb)
| JObject (fields : list (string * jsonb)).

(** Field of an object by key; [None] when the value is not an object or has
    no such key. *)
Definition jsonb_field (j : jsonb) (key : string) : option jsonb :=
  match j with
  | JObject fields =>
      match find (fun kv => String.eqb (fst kv) key) fields with
      | Some kv => Some (snd kv)
      | None => None
      end
  | _ => None
  end.

Module auth_users.
(** The columns of [auth.users] that the trigger reads. The table belongs
    to the identity provider; [id] is its primary key. *)
Record row : Type := {
  id : uuid;
  email : option string;
  raw_user_meta_data : option jsonb
}.
End auth_users.

Module profiles.
Record row : Type := {
  id : uuid;
  email : option string;
  full_name : option string;
  role : user_role;
  created_at : timestamptz;
  updated_at : timestamptz
}.
End profiles.

Module categories.
Record row : Type := {
  id : uuid;
  name : string;
  description : option string;
  created_at : timestamptz
}.
End categories.

Module products.
(** [price] is DECIMAL(10,2), kept as a count of hundredths; [quantity] is
    INTEGER. *)
Record row : Type := {
  id : uuid;
  seller_id : uuid;
  name : string;
  description : option string;
  price : Z;
  quantity : Z;
  category_id : option uuid;
  image_url : option string;
  is_active : bool;
  created_at : timestamptz;
  updated_at : timestamptz
}.
End products.

Record database : Type := {
  users : list auth_users.row;
  profiles_tbl : list profiles.row;
  categories_tbl : list categories.row;
  products_tbl : list products.row
}.

Definition with_users (db : database) (t : list auth_users.row) : database :=
  {| users := t; profiles_tbl := profiles_tbl db;
     categories_tbl := categories_tbl db; products_tbl := products_tbl db |}.

Definition with_profiles (db : database) (t : list profiles.row) : database :=
  {| users := users db; profiles_tbl := t;
     categories_tbl := categories_tbl db; products_tbl := products_tbl db |}.

Definition with_products (db : database) (t : list products.row) : database :=
  {| users := users db; profiles_tbl := profiles_tbl db;
     categories_tbl := categories_tbl db; products_tbl := t |}.

(** Membership of a key in a key column. *)
Definition has_id (k : uuid) (ids : list uuid) : bool :=
  existsb (String.eqb k) ids.

(** A key column holds no value twice (PRIMARY KEY). *)
Fixpoint unique_ids (ids : list uuid) : bool :=
  match ids with
  | [] => true
  | k :: rest => negb (has_id k rest) && unique_ids rest
  end.

(** ** The signup trigger *)

Definition coalesce {A : Type} (x : option A) (default : A) : A :=
  match x with
  | Some a => a
  | None => default
  end.

Section Signup.

(** Text form of a jsonb value that is neither a string nor null, as the
    database prints it. *)
Variable jsonb_out : jsonb -> string.

(** [meta ->> key]: the field as text.  SQL NULL ([None]) when the metadata
    is NULL or not an object, when the key is missing and when the field is
    JSON null; the content of a JSON string; the printed form of any other
    value. *)
Definition field_text (meta : option jsonb) (key : string) : option string :=
  match meta with
  | None => None
  | Some j =>
      match jsonb_field j key with
      | None => None
      | Some JNull => None
      | Some (JString s) => Some s
      | Some v => Some (jsonb_out v)
      end
  end.

(** [(text)::user_role] in a statement analysed under [search_path].  The
    type name is not qualified: it must resolve before anything is
    evaluated, or the statement raises.  Once it resolves, the cast of NULL
    is NULL and the cast of a text runs the input function of the type. *)
Definition cast_user_role (search_path : list schema) (t : option string)
  : result (option user_role) :=
  _ <- guard (type_resolves search_path "user_role")
             (undefined_object "user_role") ;;
  match t with
  | None => Ok None
  | Some s => r <- user_role_in s ;; Ok (Some r)
  end.

(** [SET search_path = ''] in the declaration of [handle_new_user]: its body
    runs with an empty search path. *)
Definition handle_new_user_search_path : list schema := [].

(** [INSERT INTO public.profiles] by the trigger.  The function is SECURITY
    DEFINER: no policy is consulted, the constraints of the table are
    (primary key on [id], foreign key to [auth.users]).  [created_at] and
    [updated_at] take their default [now()]. *)
Definition insert_profile (new : profiles.row) (db : database)
  : result database :=
  _ <- guard (negb (has_id (profiles.id new)
                           (map profiles.id (profiles_tbl db))))
             (unique_violation "profiles_pkey") ;;
  _ <- guard (has_id (profiles.id new) (map auth_users.id (users db)))
             (foreign_key_violation "profiles_id_fkey") ;;
  Ok (with_profiles db (profiles_tbl db ++ [new])).

(** [public.handle_new_user()], run for the inserted row [new].  The table
    is named with its schema, the type in the cast is not.  The VALUES list
    comes first, so a failing cast raises before any row is written. *)
Definition handle_new_user (now : timestamptz) (new : auth_users.row)
           (db : database) : result database :=
  let meta := auth_users.raw_user_meta_data new in
  let full_name := coalesce (field_text meta "full_name") "" in
  role_cast <- cast_user_role handle_new_user_search_path
                              (field_text meta "role") ;;
  let role := coalesce role_cast buyer in
  insert_profile
    {| profiles.id := auth_users.id new;
       profiles.email := auth_users.email new;
       profiles.full_name := Some full_name;
       profiles.role := role;
       profiles.created_at := now;
       profiles.updated_at := now |}
    db.

(** Identity creation: the provider inserts the row into [auth.users] and
    the trigger [on_auth_user_created] (AFTER INSERT, FOR EACH ROW) runs in
    the same statement. *)
Definition insert_auth_user (now : timestamptz) (new : auth_users.row)
           (db : database) : result database :=
  _ <- guard (negb (has_id (auth_users.id new)
                           (map auth_users.id (users db))))
             (unique_violation "users_pkey") ;;
  handle_new_user now new (with_users db (users db ++ [new])).

(** The signup as a transaction. *)
Definition signup (now : timestamptz) (new : auth_users.row)
           (db : database) : database * option sql_error :=
  transaction (insert_auth_user now new) db.

End Signup.

(** ** Row-level security *)

Inductive command : Type := SELECT | INSERT | UPDATE | DELETE.

Definition command_eqb (a b : command) : bool :=
  match a, b with
  | SELECT, SELECT | INSERT, INSERT | UPDATE, UPDATE | DELETE, DELETE => true
  | _, _ => false
  end.

(** The [FOR] clause of a policy. *)
Inductive policy_for : Type := FOR_ALL | FOR (c : command).

Inductive db_role : Type := anon | authenticated.

Definition db_role_eqb (a b : db_role) : bool :=
  match a, b with
  | anon, anon | authenticated, authenticated => true
  | _, _ => false
  end.

(** The requesting identity: [auth.uid()] is NULL for an anonymous request. *)
Record session : Type := {
  auth_uid : option uuid;
  auth_role : db_role
}.

(** SQL equality: NULL when either side is NULL. *)
Definition sql_eq {A : Type} (eqb : A -> A -> bool) (a b : option A)
  : option bool :=
  match a, b with
  | Some x, Some y => Some (eqb x y)
  | _, _ => None
  end.

(** A policy expression lets a row through only when it is true, not when it
    is false or NULL. *)
Definition is_true (v : option bool) : bool :=
  match v with
  | Some true => true
  | _ => false
  end.

Record policy (row : Type) : Type := {
  policy_name : string;
  for_cmd : policy_for;
  to_roles : option (list db_role);          (* None: no TO clause, PUBLIC *)
  using_clause : option (session -> row -> option bool);
  with_check_clause : option (session -> row -> option bool)
}.

Section Policies.

Context {row : Type}.
Variable table_name : string.
Variable policies : list (policy row).
Variable s : session.

Definition applies (p : policy row) (c : command) : bool :=
  match for_cmd p with
  | FOR_ALL => true
  | FOR c' => command_eqb c c'
  end
  &&
  match to_roles p with
  | None => true
  | Some roles => existsb (db_role_eqb (auth_role s)) roles
  end.

Definition using_holds (p : policy row) (r : row) : bool :=
  match using_clause p with
  | Some e => is_true (e s r)
  | None => true
  end.

(** Without a WITH CHECK clause the USING expression checks new rows too. *)
Definition check_holds (p : policy row) (r : row) : bool :=
  match with_check_clause p with
  | Some e => is_true (e s r)
  | None => using_holds p r
  end.

(** Permissive policies are combined with OR; with no applicable policy
    nothing passes (default deny). *)
Definition passes_using (c : command) (r : row) : bool :=
  existsb (fun p => applies p c && using_holds p r) policies.

Definition passes_check (c : command) (r : row) : bool :=
  existsb (fun p => applies p c && check_holds p r) policies.

(** [SELECT * FROM t WHERE where_]. *)
Definition rls_select (where_ : row -> bool) (tbl : list row) : list row :=
  filter (fun r => passes_using SELECT r && where_ r) tbl.

(** [INSERT INTO t VALUES new]: a new row that fails the check raises. *)
Definition rls_insert (new : row) (tbl : list row) : result (list row) :=
  _ <- guard (passes_check INSERT new) (rls_violation table_name) ;;
  Ok (tbl ++ [new])%list.

(** The rows an UPDATE or DELETE with filter [where_] touches: the filter
    names columns, so the row must be visible to SELECT as well as pass the
    USING expressions of the command.  Other rows are skipped silently. *)
Definition targets (c : command) (where_ : row -> bool) (r : row) : bool :=
  passes_using SELECT r && passes_using c r && where_ r.

(** [UPDATE t SET set WHERE where_]: the new version of a row must pass the
    checks of UPDATE and, the statement reading columns, stay visible to
    SELECT; one that does not raises and the statement fails as a whole. *)
Definition rls_update (where_ : row -> bool) (set : row -> row)
           (tbl : list row) : result (list row) :=
  mapM (fun r =>
          if targets UPDATE where_ r then
            _ <- guard (passes_check UPDATE (set r)
                        && passes_using SELECT (set r))
                       (rls_violation table_name) ;;
            Ok (set r)
          else Ok r)
       tbl.

(** [DELETE FROM t WHERE where_]. *)
Definition rls_delete (where_ : row -> bool) (tbl : list row) : list row :=
  filter (fun r => negb (targets DELETE where_ r)) tbl.

End Policies.

(** A mutation a client can request on a table. *)
Inductive mutation (row : Type) : Type :=
| Insert (new : row)
| Update (where_ : row -> bool) (set : row -> row)
| Delete (where_ : row -> bool).
Arguments Insert {row} new.
Arguments Update {row} where_ set.
Arguments Delete {row} where_.

Definition rls_mutate {row : Type} (table_name : string)
           (policies : list (policy row)) (s : session)
           (m : mutation row) (tbl : list row) : result (list row) :=
  match m with
  | Insert new => rls_insert table_name policies s new tbl
  | Update where_ set => rls_update table_name policies s where_ set tbl
  | Delete where_ => Ok (rls_delete policies s where_ tbl)
  end.

(** ** The policies of the migration *)

(** [auth.uid() = column] *)
Definition uid_is {row : Type} (column : row -> uuid)
  : session -> row -> option bool :=
  fun s r => sql_eq String.eqb (auth_uid s) (Some (column r)).

Definition profiles_policies : list (policy profiles.row) :=
  [ {| policy_name := "Users can view their own profile";
       for_cmd := FOR SELECT; to_roles := None;
       using_clause := Some (uid_is profiles.id);
       with_check_clause := None |};
    {| policy_name := "Users can update their own profile";
       for_cmd := FOR UPDATE; to_roles := None;
       using_clause := Some (uid_is profiles.id);
       with_check_clause := None |};
    {| policy_name := "Users can insert their own profile";
       for_cmd := FOR INSERT; to_roles := None;
       using_clause := None;
       with_check_clause := Some (uid_is profiles.id) |} ].

Definition categories_policies : list (policy categories.row) :=
  [ {| policy_name := "Anyone can view categories";
       for_cmd := FOR SELECT; to_roles := Some [authenticated; anon];
       using_clause := Some (fun _ _ => Some true);
       with_check_clause := None |} ].

Definition products_policies : list (policy products.row) :=
  [ {| policy_name := "Anyone can view active products";
       for_cmd := FOR SELECT; to_roles := None;
       using_clause :=
         Some (fun _ r =>
                 sql_eq Bool.eqb (Some (products.is_active r)) (Some true));
       with_check_clause := None |};
    {| policy_name := "Sellers can manage their own products";
       for_cmd := FOR_ALL; to_roles := None;
       using_clause := Some (uid_is products.seller_id);
       with_check_clause := None |} ].

(** ** Table constraints *)

(** The constraints are checked on the table a statement leaves behind,
    which comes to checking the rows it wrote when the table met them
    before. *)

(** INTEGER is 32 bits wide; a value outside the range raises. *)
Definition int4_ok (n : Z) : bool :=
  (- 2147483648 <=? n) && (n <=? 2147483647).

(** DECIMAL(10,2): at most ten digits, two of them after the point; the value
    is held in hundredths. *)
Definition numeric_10_2_ok (hundredths : Z) : bool :=
  Z.abs hundredths <? 10000000000.

Definition profiles_constraints (db : database) (tbl : list profiles.row)
  : result unit :=
  _ <- guard (unique_ids (map profiles.id tbl))
             (unique_violation "profiles_pkey") ;;
  guard (forallb (fun r => has_id (profiles.id r)
                                  (map auth_users.id (users db))) tbl)
        (foreign_key_violation "profiles_id_fkey").

Definition category_exists (db : database) (c : option uuid) : bool :=
  match c with
  | None => true
  | Some k => has_id k (map categories.id (categories_tbl db))
  end.

Definition products_constraints (db : database) (tbl : list products.row)
  : result unit :=
  _ <- guard (forallb (fun r => numeric_10_2_ok (products.price r)) tbl)
             (numeric_value_out_of_range "price") ;;
  _ <- guard (forallb (fun r => int4_ok (products.quantity r)) tbl)
             (numeric_value_out_of_range "quantity") ;;
  _ <- guard (unique_ids (map products.id tbl))
             (unique_violation "products_pkey") ;;
  _ <- guard (forallb (fun r => has_id (products.seller_id r)
                                       (map auth_users.id (users db))) tbl)
             (foreign_key_violation "products_seller_id_fkey") ;;
  guard (forallb (fun r => category_exists db (products.category_id r)) tbl)
        (foreign_key_violation "products_category_id_fkey").

(** ** Statements of a requesting identity *)

Definition profiles_select (s : session) (where_ : profiles.row -> bool)
           (db : database) : list profiles.row :=
  rls_select profiles_policies s where_ (profiles_tbl db).

Definition profiles_mutate (s : session) (m : mutation profiles.row)
           (db : database) : result database :=
  tbl <- rls_mutate "profiles" profiles_policies s m (profiles_tbl db) ;;
  _ <- profiles_constraints db tbl ;;
  Ok (with_profiles db tbl).

Definition categories_select (s : session) (where_ : categories.row -> bool)
           (db : database) : list categories.row :=
  rls_select categories_policies s where_ (categories_tbl db).

Definition products_select (s : session) (where_ : products.row -> bool)
           (db : database) : list products.row :=
  rls_select products_policies s where_ (products_tbl db).

Definition products_mutate (s : session) (m : mutation products.row)
           (db : database) : result database :=
  tbl <- rls_mutate "products" products_policies s m (products_tbl db) ;;
  _ <- products_constraints db tbl ;;
  Ok (with_products db tbl).

(** ** Rows of other identities *)

(** The rows of the products table that belong to another seller than the
    requesting identity (all rows, for an anonymous request). *)
Definition not_seller (s : session) (r : products.row) : bool :=
  negb (is_true (uid_is products.seller_id s r)).

(** The profile rows of other identities. *)
Definition not_owner (s : session) (r : profiles.row) : bool :=
  negb (is_true (uid_is profiles.id s r)).

(** ** Client: Dashboard.tsx *)

(** [.order('created_at', { ascending: false })]: insertion into a list that
    is already in descending order.  The database leaves the order of rows
    with equal timestamps open; here they stay in table order. *)
Fixpoint insert_desc (r : products.row) (sorted : list products.row)
  : list products.row :=
  match sorted with
  | [] => [r]
  | x :: rest =>
      if products.created_at x <=? products.created_at r
      then r :: x :: rest
      else x :: insert_desc r rest
  end.

Definition order_created_at_desc (l : list products.row)
  : list products.row :=
  fold_right insert_desc [] l.

(** [fetchProducts]: the active products, newest first, become the cached
    list [products] of the component. *)
Definition fetchProducts (s : session) (db : database) : list products.row :=
  order_created_at_desc
    (products_select s (fun r => Bool.eqb (products.is_active r) true) db).

(** [fetchMyProducts]: nothing is fetched without a user (the cached list
    [myProducts] stays as it is). *)
Definition fetchMyProducts (s : session) (user : option uuid)
           (myProducts : list products.row) (db : database)
  : list products.row :=
  match user with
  | None => myProducts
  | Some uid =>
      order_created_at_desc
        (products_select s (fun r => String.eqb (products.seller_id r) uid) db)
  end.

(** The toasts the two components show. *)
Inductive toast : Type :=
| Product_unavailable
| Added_to_cart (product_name : string)
| Error_adding_to_cart (e : sql_error)
| Product_added_successfully
| Error_adding_product (e : sql_error).

(** [.from('products').update({ quantity }).eq('id', id)] *)
Record quantity_update : Type := {
  new_quantity : Z;
  eq_id : uuid
}.

Definition run_quantity_update (s : session) (u : quantity_update)
           (db : database) : result database :=
  products_mutate s
    (Update (fun r => String.eqb (products.id r) (eq_id u))
            (fun r =>
               {| products.id := products.id r;
                  products.seller_id := products.seller_id r;
                  products.name := products.name r;
                  products.description := products.description r;
                  products.price := products.price r;
                  products.quantity := new_quantity u;
                  products.category_id := products.category_id r;
                  products.image_url := products.image_url r;
                  products.is_active := products.is_active r;
                  products.created_at := products.created_at r;
                  products.updated_at := products.updated_at r |}))
    db.

(** What one call of [handleAddToCart] leaves behind. *)
Record cart_outcome : Type := {
  cart_db : database;                      (* the database after the call *)
  cart_products : list products.row;       (* the cached list after the call *)
  cart_update : option quantity_update;    (* the update issued, if any *)
  cart_toast : toast
}.

(** [handleAddToCart(productId)] of a component whose cached list is
    [products], for the requesting identity [s]. *)
Definition handleAddToCart (s : session) (products : list products.row)
           (productId : uuid) (db : database) : cart_outcome :=
  match find (fun p => String.eqb (products.id p) productId) products with
  | None =>
      {| cart_db := db; cart_products := products; cart_update := None;
         cart_toast := Product_unavailable |}
  | Some product =>
      if products.quantity product =? 0 then
        {| cart_db := db; cart_products := products; cart_update := None;
           cart_toast := Product_unavailable |}
      else
        let u := {| new_quantity := products.quantity product - 1;
                    eq_id := productId |} in
        match transaction (run_quantity_update s u) db with
        | (db', Some e) =>
            {| cart_db := db'; cart_products := products;
               cart_update := Some u;
               cart_toast := Error_adding_to_cart e |}
        | (db', None) =>
            {| cart_db := db'; cart_products := fetchProducts s db';
               cart_update := Some u;
               cart_toast := Added_to_cart (products.name product) |}
        end
  end.

(** ** Client: AddProductDialog.tsx *)

Module FormData.
(** The fields of the form, all held as text. *)
Record t : Type := {
  name : string;
  description : string;
  price : string;
  quantity : string;
  category_id : string
}.
End FormData.

Module File.
Record t : Type := {
  name : string;
  size : Z;
  type : string
}.
End File.

Module product_insert.
(** The object passed to [.insert(...)]; [number] is the type of
    JavaScript numbers. *)
Record t (number : Type) : Type := {
  seller_id : uuid;
  name : string;
  description : string;
  price : number;
  quantity : number;
  category_id : option string;
  image_url : option string
}.
End product_insert.

(** How the object storage answers an upload. *)
Inductive upload_response : Type :=
| Upload_stored
| Upload_error (message : string)       (* the call returns an error *)
| Upload_rejected (message : string).   (* the call throws: network failure *)

(** [s.split(sep).pop()]: the part after the last separator, the whole text
    when there is none. *)
Fixpoint split_pop (sep : ascii) (acc s : string) : string :=
  match s with
  | EmptyString => acc
  | String c rest =>
      if Ascii.eqb c sep then split_pop sep "" rest
      else split_pop sep (acc ++ String c "") rest
  end.

(** A number inside a template literal. *)
Definition decimal (n : Z) : string :=
  NilZero.string_of_int (Z.to_int n).

(** [x || null] on a text: the empty text is falsy. *)
Definition or_null (x : string) : option string :=
  if String.eqb x "" then None else Some x.

(** What one submission of the form leaves behind. *)
Record submit_outcome (number : Type) : Type := {
  submit_db : database;
  submit_upload : option string;                  (* path of the upload issued *)
  submit_insert : option (product_insert.t number);   (* the insert issued *)
  submit_toast : option toast;
  submit_form_reset : bool                    (* form cleared, dialog closed *)
}.

Section AddProductDialog.

(** JavaScript numbers and the two parsers the form uses. *)
Variable number : Type.
Variable parseFloat : string -> number.
Variable parseInt : string -> number.

(** How the database reads a number of the request into a DECIMAL(10,2)
    (in hundredths) and into an INTEGER column; it raises on a value the
    column cannot hold (NaN travels as null). *)
Variable numeric_10_2_in : number -> result Z.
Variable int4_in : number -> result Z.

(** [supabase.storage.from(bucket).getPublicUrl(path).data.publicUrl] *)
Variable getPublicUrl : string -> string -> string.

(** [uploadImage(file)]: the path requested and the value returned. Every
    failure is caught and turns into [null]. *)
Definition uploadImage (user : option uuid) (date_now : Z) (file : File.t)
           (response : upload_response) : string * option string :=
  let fileExt := split_pop "."%char "" (File.name file) in
  let fileName :=
    coalesce user "undefined" ++ "/" ++ decimal date_now ++ "." ++ fileExt in
  match response with
  | Upload_stored => (fileName, Some (getPublicUrl "product-images" fileName))
  | Upload_error _ => (fileName, None)
  | Upload_rejected _ => (fileName, None)
  end.

(** The row the database builds from the request: [id] is generated,
    [is_active] defaults to true, both timestamps to [now()]. *)
Definition new_product_row (generated_id : uuid) (now : timestamptz)
           (p : product_insert.t number) : result products.row :=
  price <- numeric_10_2_in (product_insert.price p) ;;
  quantity <- int4_in (product_insert.quantity p) ;;
  Ok {| products.id := generated_id;
        products.seller_id := product_insert.seller_id p;
        products.name := product_insert.name p;
        products.description := Some (product_insert.description p);
        products.price := price;
        products.quantity := quantity;
        products.category_id := product_insert.category_id p;
        products.image_url := product_insert.image_url p;
        products.is_active := true;
        products.created_at := now;
        products.updated_at := now |}.

(** [.from('products').insert(p)] *)
Definition run_product_insert (s : session) (generated_id : uuid)
           (now : timestamptz) (p : product_insert.t number)
           (db : database) : result database :=
  new <- new_product_row generated_id now p ;;
  products_mutate s (Insert new) db.

(** [handleSubmit]: [date_now] is the clock of the browser, [response] the
    answer of the storage to the upload (when one is made),
    [generated_id] and [now] what the database generates for the row.  The
    loading flag and the callback [onProductAdded], which makes the dashboard
    fetch its lists again, are left out of the outcome. *)
Definition handleSubmit (s : session) (user : option uuid)
           (formData : FormData.t) (imageFile : option File.t)
           (date_now : Z) (response : upload_response)
           (generated_id : uuid) (now : timestamptz) (db : database)
  : submit_outcome number :=
  match user with
  | None =>
      {| submit_db := db; submit_upload := None; submit_insert := None;
         submit_toast := None; submit_form_reset := false |}
  | Some user_id =>
      let upload :=
        match imageFile with
        | Some file =>
            let '(path, url) := uploadImage user date_now file response in
            (Some path, url)
        | None => (None, None)
        end in
      let imageUrl := snd upload in
      let p :=
        {| product_insert.seller_id := user_id;
           product_insert.name := FormData.name formData;
           product_insert.description := FormData.description formData;
           product_insert.price := parseFloat (FormData.price formData);
           product_insert.quantity := parseInt (FormData.quantity formData);
           product_insert.category_id :=
             or_null (FormData.category_id formData);
           product_insert.image_url := imageUrl |} in
      match transaction (run_product_insert s generated_id now p) db with
      | (db', Some e) =>
          {| submit_db := db'; submit_upload := fst upload;
             submit_insert := Some p;
             submit_toast := Some (Error_adding_product e);
             submit_form_reset := false |}
      | (db', None) =>
          {| submit_db := db'; submit_upload := fst upload;
             submit_insert := Some p;
             submit_toast := Some Product_added_successfully;
             submit_form_reset := true |}
      end
  end.

End AddProductDialog.

(** * The rest of the migration and of the client *)

From Stdlib Require Import Sorted Permutation.

(** ** Categories *)

Definition with_categories (db : database) (t : list categories.row)
  : database :=
  {| users := users db; profiles_tbl := profiles_tbl db;
     categories_tbl := t; products_tbl := products_tbl db |}.

(** Primary key of [categories], and the foreign key that [products] holds
    on it. *)
Definition categories_constraints (db : database)
           (tbl : list categories.row) : result unit :=
  _ <- guard (unique_ids (map categories.id tbl))
             (unique_violation "categories_pkey") ;;
  guard (forallb (fun r => category_exists (with_categories db tbl)
                                           (products.category_id r))
                 (products_tbl db))
        (foreign_key_violation "products_category_id_fkey").

Definition categories_mutate (s : session) (m : mutation categories.row)
           (db : database) : result database :=
  tbl <- rls_mutate "categories" categories_policies s m (categories_tbl db) ;;
  _ <- categories_constraints db tbl ;;
  Ok (with_categories db tbl).

Section Collation.

(** The order of the database on text, which [.order('name')] follows. *)
Variable text_le : string -> string -> bool.

Fixpoint insert_by_name (c : categories.row) (sorted : list categories.row)
  : list categories.row :=
  match sorted with
  | [] => [c]
  | x :: rest =>
      if text_le (categories.name c) (categories.name x)
      then c :: x :: rest
      else x :: insert_by_name c rest
  end.

Definition order_by_name (l : list categories.row) : list categories.row :=
  fold_right insert_by_name [] l.

(** [fetchCategories] of the dialog: all categories, by name. *)
Definition fetchCategories (s : session) (db : database)
  : list categories.row :=
  order_by_name (categories_select s (fun _ => true) db).

End Collation.

(** ** Deleting an identity *)


(** ** Statements that go through *)


(** ** Storage objects *)

Module storage_objects.
(** The columns of [storage.objects] that the policies read. *)
Record row : Type := {
  bucket_id : string;
  name : string
}.
End storage_objects.

(** [s.split(sep)] and [string_to_array(s, sep)] for a separator of one
    character. *)
Fixpoint split_on (sep : ascii) (acc s : string) : list string :=
  match s with
  | EmptyString => [acc]
  | String c rest =>
      if Ascii.eqb c sep then acc :: split_on sep "" rest
      else split_on sep (acc ++ String c "") rest
  end.

(** Modelled from the spec: [storage.foldername] belongs to the storage
    service, not to this repository.  The policies own an object by the first
    segment of its path; the folders of a name are its segments but the last,
    which is the file. *)
Definition foldername (name : string) : list string :=
  removelast (split_on "/"%char "" name).

(** [(storage.foldername(name))[1]], NULL when the name has no folder. *)
Definition first_folder (name : string) : option string :=
  hd_error (foldername name).

(** SQL conjunction: false wins over NULL, NULL over true. *)
Definition sql_and (a b : option bool) : option bool :=
  match a, b with
  | Some false, _ | _, Some false => Some false
  | Some true, Some true => Some true
  | _, _ => None
  end.

(** [bucket_id = 'product-images'] *)
Definition in_product_images (r : storage_objects.row) : option bool :=
  sql_eq String.eqb (Some (storage_objects.bucket_id r))
         (Some "product-images").

Definition storage_policies : list (policy storage_objects.row) :=
  [ {| policy_name := "Anyone can view product images";
       for_cmd := FOR SELECT; to_roles := None;
       using_clause := Some (fun _ r => in_product_images r);
       with_check_clause := None |};
    {| policy_name := "Sellers can upload product images";
       for_cmd := FOR INSERT; to_roles := None;
       using_clause := None;
       with_check_clause :=
         Some (fun s r =>
                 sql_and (in_product_images r)
                         (sql_eq db_role_eqb (Some (auth_role s))
                                 (Some authenticated))) |};
    {| policy_name := "Sellers can update their product images";
       for_cmd := FOR UPDATE; to_roles := None;
       using_clause :=
         Some (fun s r =>
                 sql_and (in_product_images r)
                         (sql_eq String.eqb (auth_uid s)
                                 (first_folder (storage_objects.name r))));
       with_check_clause := None |};
    {| policy_name := "Sellers can delete their product images";
       for_cmd := FOR DELETE; to_roles := None;
       using_clause :=
         Some (fun s r =>
                 sql_and (in_product_images r)
                         (sql_eq String.eqb (auth_uid s)
                                 (first_folder (storage_objects.name r))));
       with_check_clause := None |} ].

(** The objects that lie outside the folder of the requesting identity. *)
Definition not_folder_owner (s : session) (r : storage_objects.row) : bool :=
  negb (is_true (sql_eq String.eqb (auth_uid s)
                        (first_folder (storage_objects.name r)))).

(** A character occurs in a text. *)
Fixpoint occurs (c : ascii) (s : string) : bool :=
  match s with
  | EmptyString => false
  | String c' rest => Ascii.eqb c' c || occurs c rest
  end.

(** ** Client: ProductCard.tsx and the rendering of the dashboard *)

Inductive badge_variant : Type := badge_default | badge_destructive.

(** What a card shows: the image or the placeholder ([None]), the name, the
    description, the price (the number after the dollar sign, here in
    hundredths), the stock badge, and the cart button with its [disabled]
    flag ([None] when the card has no button). *)
Record card_view : Type := {
  card_image : option string;
  card_title : string;
  card_description : option string;
  card_price : Z;
  card_badge : badge_variant;
  card_badge_text : string;
  card_button_disabled : option bool
}.

(** [ProductCard]; [showAddToCart] defaults to true when it is not passed. *)
Definition ProductCard (product : products.row)
           (showAddToCart : option bool) : card_view :=
  {| card_image :=
       match products.image_url product with
       | Some url => or_null url
       | None => None
       end;
     card_title := products.name product;
     card_description := products.description product;
     card_price := products.price product;
     card_badge :=
       if 0 <? products.quantity product then badge_default
       else badge_destructive;
     card_badge_text :=
       if 0 <? products.quantity product
       then decimal (products.quantity product) ++ " in stock"
       else "Out of stock";
     card_button_disabled :=
       if coalesce showAddToCart true
       then Some (products.quantity product =? 0)
       else None |}.

(** [profile?.role === r] *)
Definition role_is (profile_role : option user_role) (r : user_role) : bool :=
  match profile_role, r with
  | Some buyer, buyer | Some seller, seller => true
  | _, _ => false
  end.

(** The two grids of the dashboard once loading is over: the seller section
    ([None] when it is not rendered) and the marketplace.  A grid without
    cards stands for the notice that the page shows in place of an empty
    grid. *)
Record dashboard_view : Type := {
  my_products_section : option (list card_view);
  marketplace : list card_view
}.

Definition Dashboard (profile_role : option user_role)
           (products myProducts : list products.row) : dashboard_view :=
  {| my_products_section :=
       if role_is profile_role seller
       then Some (map (fun product => ProductCard product (Some false))
                      myProducts)
       else None;
     marketplace :=
       map (fun product =>
              ProductCard product (Some (role_is profile_role buyer)))
           products |}.

(** [handleProductAdded]: both lists are fetched again. *)
Definition handleProductAdded (s : session) (user : option uuid)
           (myProducts : list products.row) (db : database)
  : list products.row * list products.row :=
  (fetchMyProducts s user myProducts db, fetchProducts s db).

(** ** Shorthands for statements *)

(** [SET quantity = q] *)
Definition set_quantity (q : Z) (r : products.row) : products.row :=
  {| products.id := products.id r;
     products.seller_id := products.seller_id r;
     products.name := products.name r;
     products.description := products.description r;
     products.price := products.price r;
     products.quantity := q;
     products.category_id := products.category_id r;
     products.image_url := products.image_url r;
     products.is_active := products.is_active r;
     products.created_at := products.created_at r;
     products.updated_at := products.updated_at r |}.

(** [SET role = v] *)
Definition set_role (v : user_role) (r : profiles.row) : profiles.row :=
  {| profiles.id := profiles.id r;
     profiles.email := profiles.email r;
     profiles.full_name := profiles.full_name r;
     profiles.role := v;
     profiles.created_at := profiles.created_at r;
     profiles.updated_at := profiles.updated_at r |}.

(** [a] may stand before [b] in a list that is ordered by [created_at],
    newest first. *)
Definition newer_or_same (a b : products.row) : Prop :=
  products.created_at b <= products.created_at a.

(** ** Integrity of a database *)

(** The products meet the constraints of their table. *)
Definition products_sound (db : database) : Prop :=
  products_constraints db (products_tbl db) = Ok tt.

(** * Sample data *)

(** Printed form of the scalars; the sample metadata holds no array and no
    object below its top level. *)
Definition sample_out (j : jsonb) : string :=
  match j with
  | JBool true => "true"
  | JBool false => "false"
  | JNumber n => decimal n
  | _ => ""
  end.

Definition empty_db : database :=
  {| users := []; profiles_tbl := []; categories_tbl := [];
     products_tbl := [] |}.

(** Signup with metadata [{full_name: "A", role: "seller"}]. *)
Definition identity_seller : auth_users.row :=
  {| auth_users.id := "u-seller";
     auth_users.email := Some "a@example.com";
     auth_users.raw_user_meta_data :=
       Some (JObject [("full_name", JString "A"); ("role", JString "seller")])
  |}.

(** Signup with empty metadata. *)
Definition identity_plain : auth_users.row :=
  {| auth_users.id := "u-plain";
     auth_users.email := Some "b@example.com";
     auth_users.raw_user_meta_data := Some (JObject []) |}.

(** Signup with a role outside the enumeration. *)
Definition identity_admin : auth_users.row :=
  {| auth_users.id := "u-admin";
     auth_users.email := Some "c@example.com";
     auth_users.raw_user_meta_data :=
       Some (JObject [("role", JString "admin")]) |}.

Definition anonymous : session :=
  {| auth_uid := None; auth_role := anon |}.

Definition signed_in (uid : uuid) : session :=
  {| auth_uid := Some uid; auth_role := authenticated |}.

Definition lamp : products.row :=
  {| products.id := "p-lamp"; products.seller_id := "u-seller";
     products.name := "Lamp"; products.description := Some "";
     products.price := 1999; products.quantity := 1;
     products.category_id := None; products.image_url := None;
     products.is_active := true;
     products.created_at := 200; products.updated_at := 200 |}.


Definition retired_chair : products.row :=
  {| products.id := "p-chair"; products.seller_id := "u-seller";
     products.name := "Chair"; products.description := None;
     products.price := 4500; products.quantity := 3;
     products.category_id := Some "c-home"; products.image_url := None;
     products.is_active := false;
     products.created_at := 150; products.updated_at := 150 |}.

(** The profile of the seller in the sample market. *)
Definition seller_profile : profiles.row :=
  {| profiles.id := "u-seller"; profiles.email := Some "a@example.com";
     profiles.full_name := Some "A"; profiles.role := seller;
     profiles.created_at := 100; profiles.updated_at := 100 |}.

(** The profile of the buyer in the sample market. *)
Definition plain_profile : profiles.row :=
  {| profiles.id := "u-plain"; profiles.email := Some "b@example.com";
     profiles.full_name := Some ""; profiles.role := buyer;
     profiles.created_at := 101; profiles.updated_at := 101 |}.

(** Two identities with a profile each, a seller and a buyer; the seller
    has listed two products, one of them no longer active. *)
Definition market_db : database :=
  {| users := [identity_seller; identity_plain];
     profiles_tbl := [seller_profile; plain_profile];
     categories_tbl :=
       [ {| categories.id := "c-home"; categories.name := "Home & Garden";
            categories.description :=
              Some "Home improvement and garden supplies";
            categories.created_at := 0 |} ];
     products_tbl := [retired_chair; lamp] |}.

(** The update of the add-to-cart action on the lamp, written out. *)
Definition take_one_lamp : mutation products.row :=
  Update (fun r => String.eqb (products.id r) "p-lamp")
         (fun r =>
            {| products.id := products.id r;
               products.seller_id := products.seller_id r;
               products.name := products.name r;
               products.description := products.description r;
               products.price := products.price r;
               products.quantity := 0;
               products.category_id := products.category_id r;
               products.image_url := products.image_url r;
               products.is_active := products.is_active r;
               products.created_at := products.created_at r;
               products.updated_at := products.updated_at r |}).

(** [UPDATE profiles SET role = 'seller'] with a filter that takes every
    row. *)
Definition promote_everyone : mutation profiles.row :=
  Update (fun _ => true)
         (fun r =>
            {| profiles.id := profiles.id r;
               profiles.email := profiles.email r;
               profiles.full_name := profiles.full_name r;
               profiles.role := seller;
               profiles.created_at := profiles.created_at r;
               profiles.updated_at := profiles.updated_at r |}).

(** Numbers of the samples: an integer, or NaN ([None]). *)
Definition sample_number : Type := option Z.

Definition digit_value (c : ascii) : option Z :=
  let n := Z.of_nat (nat_of_ascii c) in
  if (48 <=? n) && (n <=? 57) then Some (n - 48) else None.

Fixpoint digits (s : string) (acc : Z) : option Z :=
  match s with
  | EmptyString => Some acc
  | String c rest =>
      match digit_value c with
      | Some d => digits rest (10 * acc + d)
      | None => None
      end
  end.

(** A parser for texts made of decimal digits; NaN on anything else. *)
Definition sample_parse (s : string) : sample_number :=
  if String.eqb s "" then None else digits s 0.

Definition sample_numeric_in (n : sample_number) : result Z :=
  match n with
  | Some v => Ok (100 * v)
  | None => Raise (not_null_violation "price")
  end.

Definition sample_int4_in (n : sample_number) : result Z :=
  match n with
  | Some v => Ok v
  | None => Raise (not_null_violation "quantity")
  end.

Definition sample_public_url (bucket path : string) : string :=
  "https://storage.example/object/public/" ++ bucket ++ "/" ++ path.

Definition sample_submit :=
  handleSubmit sample_parse sample_parse sample_numeric_in sample_int4_in
    sample_public_url.

Definition desk_form : FormData.t :=
  {| FormData.name := "Desk"; FormData.description := "";
     FormData.price := "120"; FormData.quantity := "5";
     FormData.category_id := "" |}.

Definition desk_photo : File.t :=
  {| File.name := "desk.front.png"; File.size := 2048;
     File.type := "image/png" |}.

(** [SET name = 'Renamed'] *)
Definition rename_category (r : categories.row) : categories.row :=
  {| categories.id := categories.id r;
     categories.name := "Renamed";
     categories.description := categories.description r;
     categories.created_at := categories.created_at r |}.

(** [SET seller_id = k] *)
Definition give_to (k : uuid) (r : products.row) : products.row :=
  {| products.id := products.id r;
     products.seller_id := k;
     products.name := products.name r;
     products.description := products.description r;
     products.price := products.price r;
     products.quantity := products.quantity r;
     products.category_id := products.category_id r;
     products.image_url := products.image_url r;
     products.is_active := products.is_active r;
     products.created_at := products.created_at r;
     products.updated_at := products.updated_at r |}.

Definition photo_of_seller : storage_objects.row :=
  {| storage_objects.bucket_id := "product-images";
     storage_objects.name := "u-seller/1700000000000.png" |}.

Definition photo_of_buyer : storage_objects.row :=
  {| storage_objects.bucket_id := "product-images";
     storage_objects.name := "u-plain/1700000000001.png" |}.

(** [SET name = 'u-plain/moved.png'] *)
Definition move_object (r : storage_objects.row) : storage_objects.row :=
  {| storage_objects.bucket_id := storage_objects.bucket_id r;
     storage_objects.name := "u-plain/moved.png" |}.

(** * Facts *)

(** ** Basic lemmas *)

Lemma guard_ok (b : bool) (e : sql_error) (u : unit) :
  guard b e = Ok u -> b = true.
Proof. unfold guard; destruct b; [reflexivity | discriminate]. Qed.

Lemma bind_ok {A B : Type} (m : result A) (k : A -> result B) (b : B) :
  bind m k = Ok b -> exists a, m = Ok a /\ k a = Ok b.
Proof. destruct m as [a | e]; simpl; [eauto | discriminate]. Qed.

Ltac inv_ok :=
  repeat match goal with
    | H : bind _ _ = Ok _ |- _ =>
        let a := fresh "a" in
        let Ha := fresh "Ha" in
        apply bind_ok in H; destruct H as [a [Ha H]]
    | H : guard _ _ = Ok _ |- _ => apply guard_ok in H
    | H : Ok _ = Ok _ |- _ => injection H as H
    end.

Lemma transaction_keeps_on_error {S : Type} (stmt : S -> result S) (db : S)
      (e : sql_error) :
  stmt db = Raise e -> transaction stmt db = (db, Some e).
Proof. unfold transaction; intros ->; reflexivity. Qed.

Lemma user_role_in_mismatch (s : string) :
  matches_enum s = false ->
  user_role_in s = Raise (invalid_text_representation "user_role" s).
Proof.
  unfold matches_enum, user_role_in. intros H.
  apply orb_false_iff in H as [-> ->]. reflexivity.
Qed.

(** ** The signup trigger *)

(** The type of the cast is in [public], which the empty search path of the
    function does not reach. *)
Lemma user_role_unresolved :
  type_resolves handle_new_user_search_path "user_role" = false.
Proof. reflexivity. Qed.

Lemma user_role_resolves_with_public (search_path : list schema) :
  In "public" search_path -> type_resolves search_path "user_role" = true.
Proof.
  intros Hin. unfold type_resolves. apply existsb_exists.
  exists "public". split; [right; exact Hin | reflexivity].
Qed.

Section SignupFacts.

Variable jsonb_out : jsonb -> string.

(** The trigger raises on every row, whatever the metadata and the
    database: the statement fails on the type name before the VALUES list
    is evaluated. *)
Lemma handle_new_user_raises now new db :
  handle_new_user jsonb_out now new db = Raise (undefined_object "user_role").
Proof. reflexivity. Qed.

Lemma insert_auth_user_never_returns now new db db' :
  insert_auth_user jsonb_out now new db <> Ok db'.
Proof.
  unfold insert_auth_user.
  destruct (has_id (auth_users.id new) (map auth_users.id (users db)));
    simpl; [discriminate |].
  rewrite handle_new_user_raises. discriminate.
Qed.

Lemma signup_keeps_database now new db :
  exists e, signup jsonb_out now new db = (db, Some e).
Proof.
  unfold signup, transaction.
  destruct (insert_auth_user jsonb_out now new db) as [db' |] eqn:H.
  - exfalso. exact (insert_auth_user_never_returns _ _ _ H).
  - eauto.
Qed.

End SignupFacts.

(** C1.  The signup of an identity with the metadata
    [{full_name: "A", role: "seller"}] on the empty database.  The trigger
    runs with an empty search path and casts to [user_role] without naming
    the schema of the type, so the statement raises and the transaction
    leaves no identity and no profile, where a profile with the role seller
    and the full name "A" is due.  On a search path that reaches [public]
    the same cast yields seller. *)
Theorem signup_with_seller_metadata_raises :
  signup sample_out 100 identity_seller empty_db
  = (empty_db, Some (undefined_object "user_role"))
  /\ users (fst (signup sample_out 100 identity_seller empty_db)) = []
  /\ filter (fun r => String.eqb (profiles.id r) "u-seller")
            (profiles_tbl (fst (signup sample_out 100 identity_seller
                                  empty_db))) = []
  /\ field_text sample_out (auth_users.raw_user_meta_data identity_seller)
                "role" = Some "seller"
  /\ cast_user_role handle_new_user_search_path (Some "seller")
     = Raise (undefined_object "user_role")
  /\ cast_user_role ["public"] (Some "seller") = Ok (Some seller).
Proof. repeat split; reflexivity. Qed.

(** C5.  A signup whose role text is present and outside the enumeration
    makes the coercion in the trigger raise; the transaction ends with an
    error and the database it started from: no profile row, no identity.
    Under the empty search path of the function the cast fails on the type
    name; under any search path that reaches the type it fails on the text,
    so the coercion raises either way. *)
Theorem invalid_role_aborts_signup
        (jsonb_out : jsonb -> string) (now : timestamptz)
        (new : auth_users.row) (db : database) (t : string) :
  field_text jsonb_out (auth_users.raw_user_meta_data new) "role" = Some t ->
  matches_enum t = false ->
  (forall db1,
      handle_new_user jsonb_out now new db1
      = Raise (undefined_object "user_role"))
  /\ (exists e, signup jsonb_out now new db = (db, Some e))
  /\ (has_id (auth_users.id new) (map auth_users.id (users db)) = false ->
      signup jsonb_out now new db
      = (db, Some (undefined_object "user_role")))
  /\ (forall search_path,
         type_resolves search_path "user_role" = true ->
         cast_user_role search_path
           (field_text jsonb_out (auth_users.raw_user_meta_data new) "role")
         = Raise (invalid_text_representation "user_role" t))
  /\ (forall search_path,
         exists e,
           cast_user_role search_path
             (field_text jsonb_out (auth_users.raw_user_meta_data new)
                "role")
           = Raise e).
Proof.
  intros Ht Hm.
  assert (Hres : forall search_path,
             type_resolves search_path "user_role" = true ->
             cast_user_role search_path
               (field_text jsonb_out (auth_users.raw_user_meta_data new)
                  "role")
             = Raise (invalid_text_representation "user_role" t)).
  { intros search_path Hp. unfold cast_user_role. rewrite Hp, Ht. simpl.
    rewrite (user_role_in_mismatch t Hm). reflexivity. }
  split; [intros db1; apply handle_new_user_raises |].
  split; [apply signup_keeps_database |]. split; [| split].
  - intros Hfresh. unfold signup. apply transaction_keeps_on_error.
    unfold insert_auth_user. rewrite Hfresh. simpl.
    apply handle_new_user_raises.
  - exact Hres.
  - intros search_path.
    destruct (type_resolves search_path "user_role") eqn:Hp.
    + rewrite (Hres search_path Hp). eauto.
    + unfold cast_user_role. rewrite Hp. simpl. eauto.
Qed.

Lemma invalid_role_aborts_signup_witness :
  (forall db1,
      handle_new_user sample_out 100 identity_admin db1
      = Raise (undefined_object "user_role"))
  /\ (exists e, signup sample_out 100 identity_admin empty_db
                = (empty_db, Some e))
  /\ (has_id (auth_users.id identity_admin)
             (map auth_users.id (users empty_db)) = false ->
      signup sample_out 100 identity_admin empty_db
      = (empty_db, Some (undefined_object "user_role")))
  /\ (forall search_path,
         type_resolves search_path "user_role" = true ->
         cast_user_role search_path
           (field_text sample_out
              (auth_users.raw_user_meta_data identity_admin) "role")
         = Raise (invalid_text_representation "user_role" "admin"))
  /\ (forall search_path,
         exists e,
           cast_user_role search_path
             (field_text sample_out
                (auth_users.raw_user_meta_data identity_admin) "role")
           = Raise e).
Proof.
  exact (@invalid_role_aborts_signup sample_out 100 identity_admin empty_db
           "admin" eq_refl eq_refl).
Defined.

(** C6.  The signup of an identity whose metadata has no role field, on the
    empty database.  The field is NULL and the default buyer is written in
    the trigger, but the statement raises on the type name of the cast
    before COALESCE is reached: no profile results, with the role buyer or
    any other.  The signup with the role text "admin" ends the same way; on
    a search path that reaches the type, the cast of NULL is NULL, which
    COALESCE would turn into buyer, and the cast of "admin" raises. *)
Theorem signup_without_role_raises :
  field_text sample_out (auth_users.raw_user_meta_data identity_plain) "role"
  = None
  /\ signup sample_out 100 identity_plain empty_db
     = (empty_db, Some (undefined_object "user_role"))
  /\ ~ (exists p,
           In p (profiles_tbl
                   (fst (signup sample_out 100 identity_plain empty_db)))
           /\ profiles.role p = buyer)
  /\ signup sample_out 100 identity_admin empty_db
     = (empty_db, Some (undefined_object "user_role"))
  /\ ~ (exists p,
           In p (profiles_tbl
                   (fst (signup sample_out 100 identity_admin empty_db)))
           /\ profiles.role p = buyer)
  /\ cast_user_role ["public"] None = Ok None
  /\ coalesce (@None user_role) buyer = buyer
  /\ cast_user_role ["public"] (Some "admin")
     = Raise (invalid_text_representation "user_role" "admin").
Proof.
  repeat split; try reflexivity; intros [p [Hin _]]; exact Hin.
Qed.

(** ** Row-level security *)

Lemma is_true_uid_is {row : Type} (column : row -> uuid) (s : session)
      (r : row) :
  is_true (uid_is column s r) = true <-> auth_uid s = Some (column r).
Proof.
  unfold uid_is, sql_eq, is_true. destruct (auth_uid s) as [u |].
  - destruct (String.eqb_spec u (column r)) as [-> | Hne]; split; intros H;
      try reflexivity; try discriminate.
    injection H as H. contradiction.
  - split; discriminate.
Qed.

Section PolicyFacts.

Context {row : Type}.
Variable table_name : string.
Variable policies : list (policy row).
Variable s : session.

(** [other r] marks the rows the requesting identity has no standing on: no
    USING expression of UPDATE or DELETE lets them through and no check
    accepts them as new rows. *)
Variable other : row -> bool.
Hypothesis update_skips : forall r,
    passes_using policies s UPDATE r = true -> other r = false.
Hypothesis delete_skips : forall r,
    passes_using policies s DELETE r = true -> other r = false.
Hypothesis insert_refuses : forall r,
    passes_check policies s INSERT r = true -> other r = false.
Hypothesis update_refuses : forall r,
    passes_check policies s UPDATE r = true -> other r = false.

Lemma targets_using (c : command) (where_ : row -> bool) (r : row) :
  targets policies s c where_ r = true ->
  passes_using policies s c r = true.
Proof.
  unfold targets. intros H.
  apply andb_true_iff in H as [H _]. apply andb_true_iff in H as [_ H].
  exact H.
Qed.

Lemma rls_insert_others new tbl tbl' :
  rls_insert table_name policies s new tbl = Ok tbl' ->
  filter other tbl' = filter other tbl.
Proof.
  unfold rls_insert. intros H. inv_ok. subst tbl'.
  rewrite filter_app. simpl. rewrite (insert_refuses _ Ha).
  apply app_nil_r.
Qed.

Lemma rls_update_others where_ set tbl tbl' :
  rls_update table_name policies s where_ set tbl = Ok tbl' ->
  filter other tbl' = filter other tbl.
Proof.
  unfold rls_update. revert tbl'.
  induction tbl as [| r tbl IH]; simpl; intros tbl' H.
  - injection H as <-. reflexivity.
  - inv_ok. subst tbl'. simpl. rewrite (IH _ Ha0).
    destruct (targets policies s UPDATE where_ r) eqn:Ht.
    + inv_ok. subst a. apply andb_true_iff in Ha1 as [Hcheck _].
      rewrite (update_refuses _ Hcheck).
      rewrite (update_skips _ (targets_using _ _ _ Ht)). reflexivity.
    + injection Ha as <-. reflexivity.
Qed.

Lemma rls_delete_others where_ tbl :
  filter other (rls_delete policies s where_ tbl) = filter other tbl.
Proof.
  unfold rls_delete. induction tbl as [| r tbl IH]; simpl; [reflexivity |].
  destruct (targets policies s DELETE where_ r) eqn:Ht; simpl.
  - rewrite (delete_skips _ (targets_using _ _ _ Ht)). exact IH.
  - rewrite IH. reflexivity.
Qed.

(** A mutation that returns has left the rows of others as they were, in
    their order. *)
Lemma rls_mutate_others m tbl tbl' :
  rls_mutate table_name policies s m tbl = Ok tbl' ->
  filter other tbl' = filter other tbl.
Proof.
  destruct m as [new | where_ set | where_]; simpl; intros H.
  - eapply rls_insert_others; eassumption.
  - eapply rls_update_others; eassumption.
  - injection H as <-. apply rls_delete_others.
Qed.

End PolicyFacts.

Lemma not_seller_false (s : session) (r : products.row) :
  not_seller s r = false <-> auth_uid s = Some (products.seller_id r).
Proof.
  unfold not_seller. rewrite negb_false_iff. apply is_true_uid_is.
Qed.

Lemma not_owner_false (s : session) (r : profiles.row) :
  not_owner s r = false <-> auth_uid s = Some (profiles.id r).
Proof.
  unfold not_owner. rewrite negb_false_iff. apply is_true_uid_is.
Qed.

Lemma not_seller_true (s : session) (r : products.row) :
  not_seller s r = true <-> auth_uid s <> Some (products.seller_id r).
Proof.
  rewrite <- not_seller_false. destruct (not_seller s r); split; congruence.
Qed.

Lemma not_owner_true (s : session) (r : profiles.row) :
  not_owner s r = true <-> auth_uid s <> Some (profiles.id r).
Proof.
  rewrite <- not_owner_false. destruct (not_owner s r); split; congruence.
Qed.

(** What the policies of [products] come to, command by command. *)
Lemma products_select_policy (s : session) (r : products.row) :
  passes_using products_policies s SELECT r
  = products.is_active r || negb (not_seller s r).
Proof.
  unfold passes_using, products_policies, applies, using_holds, not_seller.
  simpl. rewrite negb_involutive.
  destruct (products.is_active r); simpl; [reflexivity |].
  apply orb_false_r.
Qed.

Lemma products_write_policy (s : session) (c : command) (r : products.row) :
  c <> SELECT ->
  passes_using products_policies s c r = negb (not_seller s r)
  /\ passes_check products_policies s c r = negb (not_seller s r).
Proof.
  intros Hc.
  unfold passes_using, passes_check, products_policies, applies, using_holds,
    check_holds, not_seller.
  simpl. rewrite negb_involutive.
  destruct c; try contradiction; simpl; split; apply orb_false_r.
Qed.

(** What the policies of [profiles] come to. *)
Lemma profiles_select_policy (s : session) (r : profiles.row) :
  passes_using profiles_policies s SELECT r = negb (not_owner s r).
Proof.
  unfold passes_using, profiles_policies, applies, using_holds, not_owner.
  simpl. rewrite negb_involutive. apply orb_false_r.
Qed.

Lemma profiles_update_policy (s : session) (r : profiles.row) :
  passes_using profiles_policies s UPDATE r = negb (not_owner s r)
  /\ passes_check profiles_policies s UPDATE r = negb (not_owner s r).
Proof.
  unfold passes_using, passes_check, profiles_policies, applies, using_holds,
    check_holds, not_owner.
  simpl. rewrite negb_involutive. split; apply orb_false_r.
Qed.

Lemma profiles_insert_policy (s : session) (r : profiles.row) :
  passes_check profiles_policies s INSERT r = negb (not_owner s r).
Proof.
  unfold passes_check, profiles_policies, applies, check_holds, not_owner.
  simpl. rewrite negb_involutive. apply orb_false_r.
Qed.

(** No policy of [profiles] covers DELETE. *)
Lemma profiles_delete_policy (s : session) (r : profiles.row) :
  passes_using profiles_policies s DELETE r = false.
Proof. reflexivity. Qed.

Lemma negb_true_false (b : bool) : negb b = true -> b = false.
Proof. destruct b; [discriminate | reflexivity]. Qed.

Lemma products_mutate_others (s : session) (m : mutation products.row)
      (db db' : database) :
  products_mutate s m db = Ok db' ->
  filter (not_seller s) (products_tbl db')
  = filter (not_seller s) (products_tbl db).
Proof.
  unfold products_mutate. intros H. inv_ok. subst db'. simpl.
  eapply rls_mutate_others; [ | | | | eassumption]; intros r Hr;
    apply negb_true_false;
    [ rewrite <- (proj1 (products_write_policy s r (c:=UPDATE) ltac:(discriminate)))
    | rewrite <- (proj1 (products_write_policy s r (c:=DELETE) ltac:(discriminate)))
    | rewrite <- (proj2 (products_write_policy s r (c:=INSERT) ltac:(discriminate)))
    | rewrite <- (proj2 (products_write_policy s r (c:=UPDATE) ltac:(discriminate))) ];
    exact Hr.
Qed.

Lemma profiles_mutate_others (s : session) (m : mutation profiles.row)
      (db db' : database) :
  profiles_mutate s m db = Ok db' ->
  filter (not_owner s) (profiles_tbl db')
  = filter (not_owner s) (profiles_tbl db).
Proof.
  unfold profiles_mutate. intros H. inv_ok. subst db'. simpl.
  eapply rls_mutate_others; [ | | | | eassumption]; intros r Hr.
  - apply negb_true_false.
    rewrite <- (proj1 (profiles_update_policy s r)). exact Hr.
  - rewrite profiles_delete_policy in Hr. discriminate.
  - apply negb_true_false. rewrite <- profiles_insert_policy. exact Hr.
  - apply negb_true_false.
    rewrite <- (proj2 (profiles_update_policy s r)). exact Hr.
Qed.

Lemma in_filter_both {A : Type} (f : A -> bool) (l l' : list A) (a : A) :
  filter f l' = filter f l -> f a = true -> In a l -> In a l'.
Proof.
  intros Heq Hf Hin.
  assert (H : In a (filter f l)) by (apply filter_In; auto).
  rewrite <- Heq in H. apply filter_In in H. apply H.
Qed.

Lemma transaction_products_others (s : session) (m : mutation products.row)
      (db : database) :
  filter (not_seller s)
         (products_tbl (fst (transaction (products_mutate s m) db)))
  = filter (not_seller s) (products_tbl db).
Proof.
  unfold transaction.
  destruct (products_mutate s m db) as [db' | e] eqn:H; simpl;
    [eapply products_mutate_others; eassumption | reflexivity].
Qed.

Lemma handleAddToCart_others (s : session) (cache : list products.row)
      (productId : uuid) (db : database) :
  filter (not_seller s)
         (products_tbl (cart_db (handleAddToCart s cache productId db)))
  = filter (not_seller s) (products_tbl db).
Proof.
  unfold handleAddToCart.
  destruct (find _ cache) as [product |]; [| reflexivity].
  destruct (products.quantity product =? 0); [reflexivity |].
  pose proof (transaction_products_others s
                (Update (fun r => String.eqb (products.id r) productId)
                   (fun r =>
                      {| products.id := products.id r;
                         products.seller_id := products.seller_id r;
                         products.name := products.name r;
                         products.description := products.description r;
                         products.price := products.price r;
                         products.quantity := products.quantity product - 1;
                         products.category_id := products.category_id r;
                         products.image_url := products.image_url r;
                         products.is_active := products.is_active r;
                         products.created_at := products.created_at r;
                         products.updated_at := products.updated_at r |}))
                db) as H.
  unfold run_quantity_update. simpl.
  destruct (transaction _ db) as [db' [e |]]; simpl in *; exact H.
Qed.

(** C2.  Whatever insert, update or delete an identity requests on
    [products], and whether it goes through or raises: a row that appears or
    changes belongs to the requesting identity, a row that disappears or
    changes belonged to it, an insert that goes through carries its id as
    seller, and every row of another seller is in the table afterwards as it
    was before.  The same holds for the quantity update of the add-to-cart
    action, whoever issues it. *)
Theorem products_mutation_only_by_seller
        (s : session) (m : mutation products.row) (db : database) :
  let db' := fst (transaction (products_mutate s m) db) in
  (forall new, m = Insert new ->
               snd (transaction (products_mutate s m) db) = None ->
               auth_uid s = Some (products.seller_id new))
  /\ (forall r, In r (products_tbl db') -> ~ In r (products_tbl db) ->
                auth_uid s = Some (products.seller_id r))
  /\ (forall r, In r (products_tbl db) -> ~ In r (products_tbl db') ->
                auth_uid s = Some (products.seller_id r))
  /\ filter (not_seller s) (products_tbl db')
     = filter (not_seller s) (products_tbl db)
  /\ (forall r, In r (products_tbl db) ->
                auth_uid s <> Some (products.seller_id r) ->
                In r (products_tbl db'))
  /\ (forall cache productId r,
         In r (products_tbl db) ->
         auth_uid s <> Some (products.seller_id r) ->
         In r (products_tbl
                 (cart_db (handleAddToCart s cache productId db)))).
Proof.
  intros db'.
  pose proof (transaction_products_others s m db) as Hothers.
  fold db' in Hothers.
  split; [| split; [| split; [| split; [| split]]]].
  - intros new -> Hnone. unfold transaction in Hnone.
    destruct (products_mutate s (Insert new) db) as [d |] eqn:H;
      [| discriminate].
    unfold products_mutate in H. simpl in H. unfold rls_insert in H.
    inv_ok.
    rewrite (proj2 (products_write_policy s new (c:=INSERT)
                      ltac:(discriminate))) in Ha1.
    apply not_seller_false. apply negb_true_false. exact Ha1.
  - intros r Hin Hnot. apply not_seller_false.
    destruct (not_seller s r) eqn:Hns; [| reflexivity].
    exfalso. apply Hnot.
    apply (in_filter_both (not_seller s) (products_tbl db') _ r);
      [symmetry; exact Hothers | exact Hns | exact Hin].
  - intros r Hin Hnot. apply not_seller_false.
    destruct (not_seller s r) eqn:Hns; [| reflexivity].
    exfalso. apply Hnot.
    apply (in_filter_both (not_seller s) (products_tbl db) _ r);
      [exact Hothers | exact Hns | exact Hin].
  - exact Hothers.
  - intros r Hin Hne.
    apply (in_filter_both (not_seller s) (products_tbl db) _ r);
      [exact Hothers | apply not_seller_true; exact Hne | exact Hin].
  - intros cache productId r Hin Hne.
    apply (in_filter_both (not_seller s) (products_tbl db) _ r);
      [apply handleAddToCart_others | apply not_seller_true; exact Hne
      | exact Hin].
Qed.

Lemma products_mutation_only_by_seller_witness :
  In lamp (products_tbl
             (fst (transaction
                     (products_mutate (signed_in "u-plain") take_one_lamp)
                     market_db)))
  /\ In lamp (products_tbl
                (cart_db (handleAddToCart (signed_in "u-plain")
                            [lamp] "p-lamp" market_db))).
Proof.
  pose proof (products_mutation_only_by_seller (signed_in "u-plain")
                take_one_lamp market_db) as H.
  destruct H as [_ [_ [_ [_ [Hrow Hcart]]]]].
  split.
  - apply (Hrow lamp); [right; left; reflexivity | discriminate].
  - apply (Hcart [lamp] "p-lamp" lamp);
      [right; left; reflexivity | discriminate].
Defined.

Example seller_update_goes_through :
  match products_mutate (signed_in "u-seller") take_one_lamp market_db with
  | Ok db' => map products.quantity (products_tbl db') = [3; 0]
  | Raise _ => False
  end.
Proof. reflexivity. Qed.

Example buyer_update_touches_nothing :
  products_mutate (signed_in "u-plain") take_one_lamp market_db
  = Ok market_db.
Proof. reflexivity. Qed.

Example buyer_insert_for_seller_refused :
  products_mutate (signed_in "u-plain") (Insert lamp) market_db
  = Raise (rls_violation "products").
Proof. reflexivity. Qed.

(** C3.  A row of [products] that the query's filter accepts is returned to
    every identity, anonymous included, when it is active; when it is not
    active it is returned exactly to the identity that is its seller. *)
Theorem products_visibility
        (s : session) (where_ : products.row -> bool) (db : database)
        (r : products.row) :
  In r (products_tbl db) ->
  where_ r = true ->
  (products.is_active r = true -> In r (products_select s where_ db))
  /\ (products.is_active r = false ->
      (In r (products_select s where_ db)
       <-> auth_uid s = Some (products.seller_id r))).
Proof.
  intros Hin Hw. unfold products_select, rls_select. split.
  - intros Hact. apply filter_In. split; [exact Hin |].
    rewrite products_select_policy, Hact, Hw. reflexivity.
  - intros Hact. rewrite filter_In, products_select_policy, Hact, Hw.
    simpl. rewrite andb_true_r. rewrite <- not_seller_false. split.
    + intros [_ H]. apply negb_true_false. exact H.
    + intros H. split; [exact Hin | rewrite H; reflexivity].
Qed.

Lemma products_visibility_witness :
  (products.is_active lamp = true ->
   In lamp (products_select anonymous (fun _ => true) market_db))
  /\ (products.is_active retired_chair = false ->
      (In retired_chair
          (products_select (signed_in "u-plain") (fun _ => true) market_db)
       <-> auth_uid (signed_in "u-plain")
           = Some (products.seller_id retired_chair))).
Proof.
  split.
  - apply (@products_visibility anonymous (fun _ => true) market_db lamp).
    + right; left; reflexivity.
    + reflexivity.
  - apply (@products_visibility (signed_in "u-plain") (fun _ => true)
             market_db retired_chair).
    + left; reflexivity.
    + reflexivity.
Defined.

Example anonymous_sees_active_only :
  products_select anonymous (fun _ => true) market_db = [lamp].
Proof. reflexivity. Qed.

Example seller_sees_own_inactive :
  products_select (signed_in "u-seller") (fun _ => true) market_db
  = [retired_chair; lamp].
Proof. reflexivity. Qed.

Lemma transaction_profiles_others (s : session) (m : mutation profiles.row)
      (db : database) :
  filter (not_owner s)
         (profiles_tbl (fst (transaction (profiles_mutate s m) db)))
  = filter (not_owner s) (profiles_tbl db).
Proof.
  unfold transaction.
  destruct (profiles_mutate s m db) as [db' | e] eqn:H; simpl;
    [eapply profiles_mutate_others; eassumption | reflexivity].
Qed.

(** C4.  On [profiles] a select returns a row only to the identity whose id
    the row carries, so no query of another identity returns it; an insert
    goes through only for a row with the id of the requesting identity; and
    whatever mutation is requested, a row that appears or changes carries the
    id of the requesting identity while every row of another identity stays
    as it was. *)
Theorem profiles_owner_only
        (s : session) (m : mutation profiles.row) (db : database) :
  let db' := fst (transaction (profiles_mutate s m) db) in
  (forall where_ r, In r (profiles_select s where_ db) ->
                    auth_uid s = Some (profiles.id r))
  /\ (forall where_ r, In r (profiles_tbl db) ->
                       auth_uid s <> Some (profiles.id r) ->
                       ~ In r (profiles_select s where_ db))
  /\ (forall new, m = Insert new ->
                  snd (transaction (profiles_mutate s m) db) = None ->
                  auth_uid s = Some (profiles.id new))
  /\ (forall r, In r (profiles_tbl db') -> ~ In r (profiles_tbl db) ->
                auth_uid s = Some (profiles.id r))
  /\ (forall r, In r (profiles_tbl db) -> ~ In r (profiles_tbl db') ->
                auth_uid s = Some (profiles.id r))
  /\ (forall r, In r (profiles_tbl db) ->
                auth_uid s <> Some (profiles.id r) ->
                In r (profiles_tbl db')).
Proof.
  intros db'.
  pose proof (transaction_profiles_others s m db) as Hothers.
  fold db' in Hothers.
  assert (Hsel : forall where_ r, In r (profiles_select s where_ db) ->
                                  auth_uid s = Some (profiles.id r)).
  { intros where_ r H. unfold profiles_select, rls_select in H.
    apply filter_In in H as [_ H]. apply andb_true_iff in H as [H _].
    rewrite profiles_select_policy in H.
    apply not_owner_false. apply negb_true_false. exact H. }
  split; [exact Hsel |]. split; [| split; [| split; [| split]]].
  - intros where_ r _ Hne Hin. apply Hne. apply (Hsel where_ r Hin).
  - intros new -> Hnone. unfold transaction in Hnone.
    destruct (profiles_mutate s (Insert new) db) as [d |] eqn:H;
      [| discriminate].
    unfold profiles_mutate in H. simpl in H. unfold rls_insert in H.
    inv_ok. rewrite profiles_insert_policy in Ha1.
    apply not_owner_false. apply negb_true_false. exact Ha1.
  - intros r Hin Hnot. apply not_owner_false.
    destruct (not_owner s r) eqn:Hno; [| reflexivity].
    exfalso. apply Hnot.
    apply (in_filter_both (not_owner s) (profiles_tbl db') _ r);
      [symmetry; exact Hothers | exact Hno | exact Hin].
  - intros r Hin Hnot. apply not_owner_false.
    destruct (not_owner s r) eqn:Hno; [| reflexivity].
    exfalso. apply Hnot.
    apply (in_filter_both (not_owner s) (profiles_tbl db) _ r);
      [exact Hothers | exact Hno | exact Hin].
  - intros r Hin Hne.
    apply (in_filter_both (not_owner s) (profiles_tbl db) _ r);
      [exact Hothers | apply not_owner_true; exact Hne | exact Hin].
Qed.

Lemma profiles_owner_only_witness :
  ~ In plain_profile
       (profiles_select (signed_in "u-seller") (fun _ => true) market_db)
  /\ In plain_profile
        (profiles_tbl
           (fst (transaction
                   (profiles_mutate (signed_in "u-seller") promote_everyone)
                   market_db))).
Proof.
  pose proof (profiles_owner_only (signed_in "u-seller") promote_everyone
                market_db) as H.
  destruct H as [_ [Hhidden [_ [_ [_ Hkept]]]]].
  split.
  - apply (Hhidden (fun _ => true) plain_profile);
      [right; left; reflexivity | discriminate].
  - apply (Hkept plain_profile); [right; left; reflexivity | discriminate].
Defined.

Example owner_reads_own_profile :
  profiles_select (signed_in "u-plain") (fun _ => true) market_db
  = [plain_profile].
Proof. reflexivity. Qed.

Example owner_may_change_own_role :
  match profiles_mutate (signed_in "u-plain") promote_everyone market_db with
  | Ok db' => map profiles.role (profiles_tbl db') = [seller; seller]
  | Raise _ => False
  end.
Proof. reflexivity. Qed.

(** ** Add to cart *)






(** C9.  Two purchases of the last unit of the lamp, each from a list cached
    before the other one wrote.  Issued from two sessions of the seller, both
    report success and both write the quantity 0: one unit, two purchases.
    Issued by two buyers, both report success as well, and the policies keep
    the row as it was.  In either case the two purchases both succeed; the
    quantity does not become negative. *)
Theorem last_unit_purchased_twice :
  (let s := signed_in "u-seller" in
   let cache1 := fetchProducts s market_db in
   let cache2 := fetchProducts s market_db in
   let first := handleAddToCart s cache1 "p-lamp" market_db in
   let second := handleAddToCart s cache2 "p-lamp" (cart_db first) in
   map products.quantity (products_tbl market_db) = [3; 1]
   /\ cart_toast first = Added_to_cart "Lamp"
   /\ cart_toast second = Added_to_cart "Lamp"
   /\ cart_update first = Some {| new_quantity := 0; eq_id := "p-lamp" |}
   /\ cart_update second = Some {| new_quantity := 0; eq_id := "p-lamp" |}
   /\ map products.quantity (products_tbl (cart_db first)) = [3; 0]
   /\ map products.quantity (products_tbl (cart_db second)) = [3; 0])
  /\
  (let s1 := signed_in "u-plain" in
   let s2 := signed_in "u-other" in
   let cache1 := fetchProducts s1 market_db in
   let cache2 := fetchProducts s2 market_db in
   let first := handleAddToCart s1 cache1 "p-lamp" market_db in
   let second := handleAddToCart s2 cache2 "p-lamp" (cart_db first) in
   cart_toast first = Added_to_cart "Lamp"
   /\ cart_toast second = Added_to_cart "Lamp"
   /\ cart_db second = market_db).
Proof. repeat split; reflexivity. Qed.

(** ** Add product *)

Example upload_path_of_photo :
  fst (uploadImage sample_public_url (Some "u-seller") 1700000000000
         desk_photo Upload_stored)
  = "u-seller/1700000000000.png".
Proof. reflexivity. Qed.

Example desk_saved_without_image :
  let out :=
    sample_submit (signed_in "u-seller") (Some "u-seller") desk_form
      (Some desk_photo) 1700000000000 (Upload_rejected "Failed to fetch")
      "p-desk" 300 market_db in
  submit_toast out = Some Product_added_successfully
  /\ submit_upload out = Some "u-seller/1700000000000.png"
  /\ products_tbl (submit_db out)
     = [ retired_chair; lamp;
         {| products.id := "p-desk"; products.seller_id := "u-seller";
            products.name := "Desk"; products.description := Some "";
            products.price := 12000; products.quantity := 5;
            products.category_id := None; products.image_url := None;
            products.is_active := true;
            products.created_at := 300; products.updated_at := 300 |} ].
Proof. repeat split; reflexivity. Qed.

Section AddProductFacts.

Variable number : Type.
Variable parseFloat : string -> number.
Variable parseInt : string -> number.
Variable numeric_10_2_in : number -> result Z.
Variable int4_in : number -> result Z.
Variable getPublicUrl : string -> string -> string.

(** A failed upload comes back as [null]. *)
Lemma uploadImage_failure user date_now file response :
  response <> Upload_stored ->
  snd (uploadImage getPublicUrl user date_now file response) = None.
Proof.
  intros H. unfold uploadImage.
  destruct response; [contradiction | reflexivity | reflexivity].
Qed.

(** An insert that returns has appended the row built from the request. *)
Lemma run_product_insert_ok s generated_id now
      (p : product_insert.t number) db db' :
  run_product_insert numeric_10_2_in int4_in s generated_id now p db = Ok db' ->
  exists row,
    new_product_row numeric_10_2_in int4_in generated_id now p = Ok row
    /\ products_tbl db' = (products_tbl db ++ [row])%list.
Proof.
  unfold run_product_insert, products_mutate. simpl. unfold rls_insert.
  intros H. inv_ok. subst db'. simpl. exists a. split; [assumption |].
  subst a0. reflexivity.
Qed.

(** The row keeps the seller, the category and the image of the request. *)
Lemma new_product_row_fields generated_id now
      (p : product_insert.t number) row :
  new_product_row numeric_10_2_in int4_in generated_id now p = Ok row ->
  products.seller_id row = product_insert.seller_id p
  /\ products.category_id row = product_insert.category_id p
  /\ products.image_url row = product_insert.image_url p.
Proof.
  unfold new_product_row. intros H. inv_ok. subst row. simpl. auto.
Qed.

(** With a user, the insert is issued; when the success toast shows, the
    table has one more row, built from the request. *)
Lemma handleSubmit_insert s user_id formData imageFile date_now response
      generated_id now db :
  let out :=
    handleSubmit parseFloat parseInt numeric_10_2_in int4_in getPublicUrl
      s (Some user_id) formData imageFile date_now response generated_id now
      db in
  exists p,
    submit_insert out = Some p
    /\ product_insert.seller_id p = user_id
    /\ product_insert.category_id p = or_null (FormData.category_id formData)
    /\ product_insert.image_url p
       = match imageFile with
         | Some file =>
             snd (uploadImage getPublicUrl (Some user_id) date_now file
                    response)
         | None => None
         end
    /\ (submit_toast out = Some Product_added_successfully ->
        exists row,
          new_product_row numeric_10_2_in int4_in generated_id now p = Ok row
          /\ products_tbl (submit_db out) = (products_tbl db ++ [row])%list).
Proof.
  intros out. subst out. unfold handleSubmit, transaction.
  match goal with
  | |- context [run_product_insert _ _ _ _ _ ?p db] =>
      destruct (run_product_insert numeric_10_2_in int4_in s generated_id
                  now p db) as [db' | e] eqn:Hrun; simpl; exists p
  end.
  - split; [reflexivity |]. split; [reflexivity |]. split; [reflexivity |].
    split.
    + destruct imageFile as [file |]; [| reflexivity].
      destruct (uploadImage getPublicUrl (Some user_id) date_now file
                  response); reflexivity.
    + intros _. apply run_product_insert_ok in Hrun. exact Hrun.
  - split; [reflexivity |]. split; [reflexivity |]. split; [reflexivity |].
    split.
    + destruct imageFile as [file |]; [| reflexivity].
      destruct (uploadImage getPublicUrl (Some user_id) date_now file
                  response); reflexivity.
    + discriminate.
Qed.

End AddProductFacts.

(** * Further facts *)

(** ** Keys *)

Lemma has_id_In (k : uuid) (ids : list uuid) :
  has_id k ids = true <-> In k ids.
Proof.
  unfold has_id. rewrite existsb_exists. split.
  - intros [x [Hin Heq]]. apply String.eqb_eq in Heq. subst x. exact Hin.
  - intros Hin. exists k. split; [exact Hin | apply String.eqb_refl].
Qed.

Lemma has_id_app (k : uuid) (l l' : list uuid) :
  has_id k (l ++ l') = has_id k l || has_id k l'.
Proof. unfold has_id. apply existsb_app. Qed.

Lemma unique_ids_app_last (k : uuid) (l : list uuid) :
  unique_ids (l ++ [k]) = unique_ids l && negb (has_id k l).
Proof.
  induction l as [| a l IH]; simpl; [reflexivity |].
  rewrite IH, has_id_app. simpl. rewrite orb_false_r.
  rewrite (String.eqb_sym a k).
  destruct (has_id a l), (String.eqb k a), (unique_ids l), (has_id k l);
    reflexivity.
Qed.



Lemma with_products_same (db : database) :
  with_products db (products_tbl db) = db.
Proof. destruct db; reflexivity. Qed.

(** ** Policies, evaluated *)

Section UpdateFacts.

Context {row : Type}.
Variable table_name : string.
Variable policies : list (policy row).
Variable s : session.

(** An update that the checks accept on every row it takes comes to a map
    over the table. *)
Lemma rls_update_map (where_ : row -> bool) (set : row -> row)
      (tbl : list row) :
  (forall r, In r tbl ->
             targets policies s UPDATE where_ r = true ->
             passes_check policies s UPDATE (set r)
             && passes_using policies s SELECT (set r) = true) ->
  rls_update table_name policies s where_ set tbl
  = Ok (map (fun r => if targets policies s UPDATE where_ r
                      then set r else r) tbl).
Proof.
  unfold rls_update. induction tbl as [| r tbl IH]; simpl; intros H.
  - reflexivity.
  - rewrite IH by (intros r' Hin; apply H; right; exact Hin).
    destruct (targets policies s UPDATE where_ r) eqn:Ht; simpl.
    + rewrite (H r (or_introl eq_refl) Ht). reflexivity.
    + reflexivity.
Qed.

(** An update with a row whose new version the checks refuse raises. *)
Lemma rls_update_refused (where_ : row -> bool) (set : row -> row)
      (tbl : list row) (r : row) :
  In r tbl ->
  targets policies s UPDATE where_ r = true ->
  passes_check policies s UPDATE (set r) = false ->
  rls_update table_name policies s where_ set tbl
  = Raise (rls_violation table_name).
Proof.
  unfold rls_update. induction tbl as [| a tbl IH]; simpl; intros Hin Ht Hc.
  - destruct Hin.
  - destruct (targets policies s UPDATE where_ a) eqn:Hta; simpl.
    + destruct (passes_check policies s UPDATE (set a)
                && passes_using policies s SELECT (set a)) eqn:Hca; simpl.
      * destruct Hin as [-> | Hin]; [rewrite Hc in Hca; discriminate |].
        rewrite (IH Hin Ht Hc). reflexivity.
      * reflexivity.
    + destruct Hin as [-> | Hin]; [congruence |].
      rewrite (IH Hin Ht Hc). reflexivity.
Qed.

(** A key that the policies pin to the requesting identity is the same
    before and after an update. *)
Lemma rls_update_keeps_key (key : row -> uuid) (where_ : row -> bool)
      (set : row -> row) (tbl tbl' : list row) :
  (forall r, passes_using policies s UPDATE r = true ->
             passes_check policies s UPDATE (set r) = true ->
             key (set r) = key r) ->
  rls_update table_name policies s where_ set tbl = Ok tbl' ->
  map key tbl' = map key tbl.
Proof.
  unfold rls_update. intros Hkey. revert tbl'.
  induction tbl as [| r tbl IH]; simpl; intros tbl' H.
  - injection H as <-. reflexivity.
  - inv_ok. subst tbl'. simpl. rewrite (IH _ Ha0). f_equal.
    destruct (targets policies s UPDATE where_ r) eqn:Ht.
    + inv_ok. subst a. apply andb_true_iff in Ha1 as [Hc _].
      apply Hkey; [| exact Hc].
      unfold targets in Ht. apply andb_true_iff in Ht as [Ht _].
      apply andb_true_iff in Ht as [_ Ht]. exact Ht.
    + injection Ha as <-. reflexivity.
Qed.

(** With no policy for DELETE nothing is deleted. *)
Lemma rls_delete_nothing (where_ : row -> bool) (tbl : list row) :
  (forall r, passes_using policies s DELETE r = false) ->
  rls_delete policies s where_ tbl = tbl.
Proof.
  intros H. unfold rls_delete. induction tbl as [| r tbl IH]; simpl.
  - reflexivity.
  - unfold targets at 1. rewrite H, andb_false_r. simpl. rewrite IH.
    reflexivity.
Qed.

End UpdateFacts.

(** ** Categories *)

Lemma categories_select_policy (s : session) (r : categories.row) :
  passes_using categories_policies s SELECT r = true.
Proof.
  unfold passes_using, categories_policies, applies, using_holds. simpl.
  destruct (auth_role s); reflexivity.
Qed.

Lemma categories_write_policy (s : session) (c : command)
      (r : categories.row) :
  c <> SELECT ->
  passes_using categories_policies s c r = false
  /\ passes_check categories_policies s c r = false.
Proof.
  intros Hc. destruct c; try contradiction; split; reflexivity.
Qed.

Lemma with_categories_same (db : database) :
  with_categories db (categories_tbl db) = db.
Proof. destruct db; reflexivity. Qed.

(** X1.  Every identity, anonymous or signed in, reads every category that
    the filter of its query accepts.  No identity changes the table: an
    insert raises, and whatever a request does, the table is afterwards as
    it was.  On a database that meets the constraints of [categories], an
    update and a delete go through and leave the database as it was. *)
Theorem categories_read_only
        (s : session) (m : mutation categories.row) (db : database) :
  (forall where_, categories_select s where_ db
                  = filter where_ (categories_tbl db))
  /\ categories_tbl (fst (transaction (categories_mutate s m) db))
     = categories_tbl db
  /\ (forall new, m = Insert new ->
                  categories_mutate s m db
                  = Raise (rls_violation "categories"))
  /\ (categories_constraints db (categories_tbl db) = Ok tt ->
      (forall where_ set,
          categories_mutate s (Update where_ set) db = Ok db)
      /\ (forall where_, categories_mutate s (Delete where_) db = Ok db)).
Proof.
  assert (Hupd : forall where_ set,
             rls_update "categories" categories_policies s where_ set
                        (categories_tbl db) = Ok (categories_tbl db)).
  { intros where_ set. rewrite rls_update_map.
    - f_equal. etransitivity; [| apply map_id].
      apply map_ext. intros r. unfold targets.
      rewrite (proj1 (categories_write_policy s r (c:=UPDATE)
                        ltac:(discriminate))).
      rewrite andb_false_r. reflexivity.
    - intros r _ Ht. unfold targets in Ht.
      rewrite (proj1 (categories_write_policy s r (c:=UPDATE)
                        ltac:(discriminate))) in Ht.
      rewrite andb_false_r in Ht. discriminate. }
  assert (Hdel : forall where_,
             rls_delete categories_policies s where_ (categories_tbl db)
             = categories_tbl db).
  { intros where_. apply rls_delete_nothing. intros r. reflexivity. }
  split; [| split; [| split]].
  - intros where_. unfold categories_select, rls_select.
    apply filter_ext. intros r. rewrite categories_select_policy.
    reflexivity.
  - unfold transaction.
    destruct (categories_mutate s m db) as [db' |] eqn:H; [| reflexivity].
    unfold categories_mutate in H. inv_ok. subst db'. simpl.
    destruct m as [new | where_ set | where_]; simpl in Ha.
    + unfold rls_insert in Ha.
      rewrite (proj2 (categories_write_policy s new (c:=INSERT)
                        ltac:(discriminate))) in Ha. discriminate.
    + rewrite Hupd in Ha. injection Ha as <-. reflexivity.
    + injection Ha as <-. apply Hdel.
  - intros new ->. unfold categories_mutate, rls_mutate, rls_insert.
    rewrite (proj2 (categories_write_policy s new (c:=INSERT)
                      ltac:(discriminate))). reflexivity.
  - intros Hok. split.
    + intros where_ set. unfold categories_mutate, rls_mutate.
      rewrite Hupd. simpl. rewrite Hok. simpl.
      rewrite with_categories_same. reflexivity.
    + intros where_. unfold categories_mutate, rls_mutate.
      rewrite Hdel. simpl. rewrite Hok. simpl.
      rewrite with_categories_same. reflexivity.
Qed.

Lemma categories_read_only_witness :
  categories_mutate anonymous
    (Insert {| categories.id := "c-toys"; categories.name := "Toys";
               categories.description := None; categories.created_at := 1 |})
    market_db
  = Raise (rls_violation "categories")
  /\ categories_mutate (signed_in "u-seller")
       (Update (fun _ => true) rename_category) market_db
     = Ok market_db
  /\ categories_mutate (signed_in "u-seller") (Delete (fun _ => true))
       market_db
     = Ok market_db.
Proof.
  split; [| split].
  - exact (proj1 (proj2 (proj2
             (categories_read_only anonymous
                (Insert {| categories.id := "c-toys";
                           categories.name := "Toys";
                           categories.description := None;
                           categories.created_at := 1 |})
                market_db))) _ eq_refl).
  - exact (proj1 (proj2 (proj2 (proj2
             (categories_read_only (signed_in "u-seller")
                (Update (fun _ => true) rename_category) market_db)))
             eq_refl) (fun _ => true) rename_category).
  - exact (proj2 (proj2 (proj2 (proj2
             (categories_read_only (signed_in "u-seller")
                (Delete (fun _ => true)) market_db)))
             eq_refl) (fun _ => true)).
Defined.

(** ** What a signup comes to *)

(** X2.  No signup goes through.  For every new identity, whatever its
    metadata, and every database, the trigger raises on the type name of
    its cast, which the empty search path of the function does not resolve;
    the identity insert never returns and the transaction leaves the
    database as it was.  The type name is all that fails: on a search path
    that holds [public], the cast accepts a missing role and both labels of
    the enumeration. *)
Theorem signup_never_goes_through
        (jsonb_out : jsonb -> string) (now : timestamptz)
        (new : auth_users.row) (db : database) :
  handle_new_user jsonb_out now new db = Raise (undefined_object "user_role")
  /\ (forall db', insert_auth_user jsonb_out now new db <> Ok db')
  /\ (exists e, signup jsonb_out now new db = (db, Some e))
  /\ (forall search_path,
         In "public" search_path ->
         cast_user_role search_path None = Ok None
         /\ cast_user_role search_path (Some "buyer") = Ok (Some buyer)
         /\ cast_user_role search_path (Some "seller") = Ok (Some seller)).
Proof.
  split; [apply handle_new_user_raises |].
  split; [intros db'; apply insert_auth_user_never_returns |].
  split; [apply signup_keeps_database |].
  intros search_path Hin. unfold cast_user_role.
  rewrite (user_role_resolves_with_public search_path Hin).
  repeat split.
Qed.

Lemma signup_never_goes_through_witness :
  cast_user_role ["public"] None = Ok None
  /\ cast_user_role ["public"] (Some "buyer") = Ok (Some buyer)
  /\ cast_user_role ["public"] (Some "seller") = Ok (Some seller).
Proof.
  apply (proj2 (proj2 (proj2
           (signup_never_goes_through sample_out 100 identity_seller
              empty_db)))).
  left. reflexivity.
Defined.

(** ** Integrity kept by every statement *)

Lemma profiles_constraints_ok (db : database) (tbl : list profiles.row) :
  profiles_constraints db tbl = Ok tt <->
  unique_ids (map profiles.id tbl) = true
  /\ forallb (fun r => has_id (profiles.id r)
                              (map auth_users.id (users db))) tbl = true.
Proof.
  unfold profiles_constraints.
  destruct (unique_ids (map profiles.id tbl)); simpl;
    [| split; [discriminate | intros [H _]; discriminate]].
  destruct (forallb _ tbl); simpl;
    [tauto | split; [discriminate | intros [_ H]; discriminate]].
Qed.

Lemma products_constraints_ok (db : database) (tbl : list products.row) :
  products_constraints db tbl = Ok tt <->
  forallb (fun r => numeric_10_2_ok (products.price r)) tbl = true
  /\ forallb (fun r => int4_ok (products.quantity r)) tbl = true
  /\ unique_ids (map products.id tbl) = true
  /\ forallb (fun r => has_id (products.seller_id r)
                              (map auth_users.id (users db))) tbl = true
  /\ forallb (fun r => category_exists db (products.category_id r)) tbl
     = true.
Proof.
  unfold products_constraints.
  destruct (forallb (fun r => numeric_10_2_ok (products.price r)) tbl);
    simpl; [| split; [discriminate | intros [H _]; discriminate]].
  destruct (forallb (fun r => int4_ok (products.quantity r)) tbl);
    simpl; [| split; [discriminate | intros [_ [H _]]; discriminate]].
  destruct (unique_ids (map products.id tbl));
    simpl; [| split; [discriminate | intros [_ [_ [H _]]]; discriminate]].
  destruct (forallb (fun r => has_id (products.seller_id r)
                                     (map auth_users.id (users db))) tbl);
    simpl;
    [| split; [discriminate | intros [_ [_ [_ [H _]]]]; discriminate]].
  destruct (forallb _ tbl); simpl;
    [tauto | split; [discriminate | intros [_ [_ [_ [_ H]]]]; discriminate]].
Qed.

Lemma result_unit_ok (m : result unit) (u : unit) : m = Ok u -> m = Ok tt.
Proof. destruct u. auto. Qed.

(** X3.  A request on [profiles] that goes through deletes no profile and
    moves none to another id.  An update leaves the ids of the table as they
    were, row for row; a delete leaves the table as it was; an insert
    appends one row, which carries the id of the requesting identity, an id
    that no profile had and that an identity has.  The other tables are not
    touched. *)
Theorem profiles_requests_keep_rows
        (s : session) (m : mutation profiles.row) (db db' : database) :
  profiles_mutate s m db = Ok db' ->
  db' = with_profiles db (profiles_tbl db')
  /\ match m with
     | Insert new =>
         profiles_tbl db' = (profiles_tbl db ++ [new])%list
         /\ auth_uid s = Some (profiles.id new)
         /\ has_id (profiles.id new) (map profiles.id (profiles_tbl db))
            = false
         /\ has_id (profiles.id new) (map auth_users.id (users db)) = true
     | Update _ _ =>
         map profiles.id (profiles_tbl db')
         = map profiles.id (profiles_tbl db)
     | Delete _ => profiles_tbl db' = profiles_tbl db
     end.
Proof.
  intros H. unfold profiles_mutate in H.
  destruct (rls_mutate "profiles" profiles_policies s m (profiles_tbl db))
    as [tbl' |] eqn:Hm; simpl in H; [| discriminate].
  destruct (profiles_constraints db tbl') as [u |] eqn:Hc; simpl in H;
    [| discriminate].
  injection H as <-. simpl. split; [reflexivity |].
  apply result_unit_ok in Hc. apply profiles_constraints_ok in Hc.
  destruct Hc as [Hu Hfk].
  destruct m as [new | where_ set | where_]; simpl in Hm.
  - unfold rls_insert in Hm.
    destruct (passes_check profiles_policies s INSERT new) eqn:Hcheck;
      simpl in Hm; [| discriminate].
    injection Hm as <-. split; [reflexivity |].
    rewrite profiles_insert_policy in Hcheck.
    split; [apply not_owner_false; apply negb_true_false; exact Hcheck |].
    rewrite map_app in Hu. simpl in Hu.
    rewrite unique_ids_app_last in Hu. apply andb_true_iff in Hu as [_ Hu].
    apply negb_true_iff in Hu. split; [exact Hu |].
    rewrite forallb_app in Hfk. apply andb_true_iff in Hfk as [_ Hfk].
    simpl in Hfk. rewrite andb_true_r in Hfk. exact Hfk.
  - eapply rls_update_keeps_key; [| exact Hm].
    intros r Hr Hc.
    rewrite (proj1 (profiles_update_policy s r)) in Hr.
    rewrite (proj2 (profiles_update_policy s (set r))) in Hc.
    apply negb_true_false in Hr. apply negb_true_false in Hc.
    apply not_owner_false in Hr. apply not_owner_false in Hc.
    congruence.
  - injection Hm as <-. apply rls_delete_nothing.
    intros r. reflexivity.
Qed.

Lemma profiles_requests_keep_rows_witness :
  profiles_tbl
    (fst (transaction
            (profiles_mutate (signed_in "u-plain") (Delete (fun _ => true)))
            market_db))
  = profiles_tbl market_db.
Proof.
  exact (proj2 (@profiles_requests_keep_rows (signed_in "u-plain")
                  (Delete (fun _ => true)) market_db
                  (fst (transaction
                          (profiles_mutate (signed_in "u-plain")
                             (Delete (fun _ => true)))
                          market_db))
                  eq_refl)).
Defined.





(** ** What an owner can and cannot do *)

Lemma forallb_map_key {row : Type} (key : row -> uuid) (p : uuid -> bool)
      (l : list row) :
  forallb (fun r => p (key r)) l = forallb p (map key l).
Proof.
  induction l as [| r l IH]; simpl; [reflexivity | rewrite IH; reflexivity].
Qed.

Lemma profiles_constraints_same_ids (db : database)
      (tbl tbl' : list profiles.row) :
  map profiles.id tbl' = map profiles.id tbl ->
  profiles_constraints db tbl' = profiles_constraints db tbl.
Proof.
  intros H. unfold profiles_constraints.
  rewrite (forallb_map_key profiles.id
             (fun k => has_id k (map auth_users.id (users db))) tbl').
  rewrite (forallb_map_key profiles.id
             (fun k => has_id k (map auth_users.id (users db))) tbl).
  rewrite H. reflexivity.
Qed.

Lemma not_owner_of (s : session) (u : uuid) (r : profiles.row) :
  auth_uid s = Some u ->
  negb (not_owner s r) = String.eqb (profiles.id r) u.
Proof.
  intros Hs. unfold not_owner, uid_is, sql_eq, is_true. rewrite Hs.
  rewrite negb_involutive, String.eqb_sym.
  destruct (String.eqb (profiles.id r) u); reflexivity.
Qed.

Lemma not_seller_of (s : session) (u : uuid) (r : products.row) :
  auth_uid s = Some u ->
  negb (not_seller s r) = String.eqb (products.seller_id r) u.
Proof.
  intros Hs. unfold not_seller, uid_is, sql_eq, is_true. rewrite Hs.
  rewrite negb_involutive, String.eqb_sym.
  destruct (String.eqb (products.seller_id r) u); reflexivity.
Qed.

(** X5.  The update policy of [profiles] looks at the id only: an identity
    can set the role of its own profile to any value of the enumeration, a
    buyer can make itself a seller.  The statement goes through in every
    database whose profiles meet the constraints of their table, changes
    the role of that one profile and nothing else. *)
Theorem own_role_can_be_changed
        (s : session) (u : uuid) (v : user_role) (db : database) :
  profiles_constraints db (profiles_tbl db) = Ok tt ->
  auth_uid s = Some u ->
  profiles_mutate s
    (Update (fun r => String.eqb (profiles.id r) u) (set_role v)) db
  = Ok (with_profiles db
          (map (fun r => if String.eqb (profiles.id r) u
                         then set_role v r else r)
               (profiles_tbl db))).
Proof.
  intros Hinv Hs.
  unfold profiles_mutate, rls_mutate.
  rewrite rls_update_map.
  - assert (Hmap :
      map (fun r =>
             if targets profiles_policies s UPDATE
                  (fun r0 => String.eqb (profiles.id r0) u) r
             then set_role v r else r) (profiles_tbl db)
      = map (fun r => if String.eqb (profiles.id r) u
                      then set_role v r else r) (profiles_tbl db)).
    { apply map_ext. intros r. unfold targets.
      rewrite profiles_select_policy, (proj1 (profiles_update_policy s r)).
      rewrite (not_owner_of s r Hs).
      destruct (String.eqb (profiles.id r) u); reflexivity. }
    rewrite Hmap. simpl.
    rewrite (@profiles_constraints_same_ids db (profiles_tbl db)).
    + rewrite Hinv. reflexivity.
    + rewrite map_map. apply map_ext. intros r.
      destruct (String.eqb (profiles.id r) u); reflexivity.
  - intros r _ Ht. unfold targets in Ht.
    rewrite profiles_select_policy, (proj1 (profiles_update_policy s r)) in Ht.
    rewrite (proj2 (profiles_update_policy s (set_role v r))).
    rewrite profiles_select_policy.
    rewrite (not_owner_of s (set_role v r) Hs). simpl.
    rewrite (not_owner_of s r Hs) in Ht.
    destruct (String.eqb (profiles.id r) u); [reflexivity | discriminate].
Qed.

Lemma own_role_can_be_changed_witness :
  profiles_mutate (signed_in "u-plain")
    (Update (fun r => String.eqb (profiles.id r) "u-plain")
            (set_role seller)) market_db
  = Ok (with_profiles market_db
          (map (fun r => if String.eqb (profiles.id r) "u-plain"
                         then set_role seller r else r)
               (profiles_tbl market_db))).
Proof.
  exact (@own_role_can_be_changed (signed_in "u-plain") "u-plain" seller
           market_db eq_refl eq_refl).
Defined.

(** X6.  A seller cannot hand a product to another seller: an update that
    takes one of the requester's rows and gives it another [seller_id] fails
    the check on the new row, raises, and leaves the database as it was. *)
Theorem product_cannot_change_seller
        (s : session) (where_ : products.row -> bool)
        (set : products.row -> products.row) (db : database)
        (r : products.row) :
  In r (products_tbl db) ->
  auth_uid s = Some (products.seller_id r) ->
  where_ r = true ->
  products.seller_id (set r) <> products.seller_id r ->
  products_mutate s (Update where_ set) db = Raise (rls_violation "products")
  /\ fst (transaction (products_mutate s (Update where_ set)) db) = db.
Proof.
  intros Hin Hs Hw Hne.
  assert (H : products_mutate s (Update where_ set) db
              = Raise (rls_violation "products")).
  { unfold products_mutate, rls_mutate.
    rewrite (rls_update_refused "products" products_policies s where_ set
               (products_tbl db) r Hin).
    - reflexivity.
    - unfold targets. rewrite products_select_policy.
      rewrite (proj1 (products_write_policy s r (c:=UPDATE)
                        ltac:(discriminate))).
      rewrite (not_seller_of s r Hs), String.eqb_refl, Hw.
      rewrite orb_true_r. reflexivity.
    - rewrite (proj2 (products_write_policy s (set r) (c:=UPDATE)
                        ltac:(discriminate))).
      rewrite (not_seller_of s (set r) Hs).
      apply String.eqb_neq. exact Hne. }
  split; [exact H |]. unfold transaction. rewrite H. reflexivity.
Qed.

Lemma product_cannot_change_seller_witness :
  products_mutate (signed_in "u-seller")
    (Update (fun r => String.eqb (products.id r) "p-lamp")
            (give_to "u-plain")) market_db
  = Raise (rls_violation "products")
  /\ fst (transaction
            (products_mutate (signed_in "u-seller")
               (Update (fun r => String.eqb (products.id r) "p-lamp")
                       (give_to "u-plain"))) market_db)
     = market_db.
Proof.
  apply (@product_cannot_change_seller (signed_in "u-seller")
           (fun r => String.eqb (products.id r) "p-lamp")
           (give_to "u-plain") market_db lamp).
  - right. left. reflexivity.
  - reflexivity.
  - reflexivity.
  - discriminate.
Defined.

(** ** The lists of the dashboard *)

Lemma insert_desc_perm (r : products.row) (l : list products.row) :
  Permutation (insert_desc r l) (r :: l).
Proof.
  induction l as [| x l IH]; simpl; [apply Permutation_refl |].
  destruct (products.created_at x <=? products.created_at r).
  - apply Permutation_refl.
  - apply perm_trans with (x :: r :: l).
    + apply perm_skip. exact IH.
    + apply perm_swap.
Qed.

Lemma order_created_at_desc_perm (l : list products.row) :
  Permutation (order_created_at_desc l) l.
Proof.
  unfold order_created_at_desc. induction l as [| r l IH]; simpl.
  - apply Permutation_refl.
  - apply perm_trans with (r :: fold_right insert_desc [] l).
    + apply insert_desc_perm.
    + apply perm_skip. exact IH.
Qed.

Lemma insert_desc_sorted (r : products.row) (l : list products.row) :
  Sorted newer_or_same l -> Sorted newer_or_same (insert_desc r l).
Proof.
  induction 1 as [| x l Hs IH Hhd]; simpl.
  - repeat constructor.
  - destruct (Z.leb_spec (products.created_at x) (products.created_at r))
      as [Hle | Hlt].
    + constructor; [constructor; assumption |].
      constructor. exact Hle.
    + constructor; [exact IH |].
      destruct l as [| y l]; simpl.
      * constructor. unfold newer_or_same. lia.
      * destruct (products.created_at y <=? products.created_at r).
        -- constructor. unfold newer_or_same. lia.
        -- inversion Hhd; subst. constructor. assumption.
Qed.

Lemma order_created_at_desc_sorted (l : list products.row) :
  Sorted newer_or_same (order_created_at_desc l).
Proof.
  unfold order_created_at_desc. induction l as [| r l IH]; simpl.
  - constructor.
  - apply insert_desc_sorted. exact IH.
Qed.

(** The query of [fetchProducts] comes to the active rows, for everyone. *)
Lemma active_products_select (s : session) (db : database) :
  products_select s (fun r => Bool.eqb (products.is_active r) true) db
  = filter products.is_active (products_tbl db).
Proof.
  unfold products_select, rls_select. apply filter_ext. intros r.
  rewrite products_select_policy.
  destruct (products.is_active r); simpl; [reflexivity |].
  apply andb_false_r.
Qed.

(** X7.  [fetchProducts] yields exactly the active products of the table,
    each as often as it is there, newest first, and the same list to every
    identity: a seller does not get its own inactive products from it and an
    anonymous visitor misses nothing. *)
Theorem fetchProducts_active_newest_first (s : session) (db : database) :
  Permutation (fetchProducts s db)
              (filter products.is_active (products_tbl db))
  /\ Sorted newer_or_same (fetchProducts s db)
  /\ (forall s', fetchProducts s' db = fetchProducts s db).
Proof.
  unfold fetchProducts. split; [| split].
  - rewrite active_products_select. apply order_created_at_desc_perm.
  - apply order_created_at_desc_sorted.
  - intros s'. rewrite !active_products_select. reflexivity.
Qed.

(** The query of [fetchMyProducts]. *)
Lemma seller_products_select (s : session) (u : uuid) (db : database) :
  products_select s (fun r => String.eqb (products.seller_id r) u) db
  = filter (fun r => String.eqb (products.seller_id r) u
                     && (products.is_active r || negb (not_seller s r)))
           (products_tbl db).
Proof.
  unfold products_select, rls_select. apply filter_ext. intros r.
  rewrite products_select_policy. apply andb_comm.
Qed.

(** X8.  [fetchMyProducts] for the signed-in seller yields all its products,
    inactive ones included, newest first.  Asked for the products of another
    identity, the query yields only the active ones.  Without a user nothing
    is fetched and the list stays. *)
Theorem fetchMyProducts_own_and_foreign
        (s : session) (u : uuid) (myProducts : list products.row)
        (db : database) :
  (auth_uid s = Some u ->
   Permutation (fetchMyProducts s (Some u) myProducts db)
               (filter (fun r => String.eqb (products.seller_id r) u)
                       (products_tbl db)))
  /\ (auth_uid s <> Some u ->
      Permutation (fetchMyProducts s (Some u) myProducts db)
                  (filter (fun r => String.eqb (products.seller_id r) u
                                    && products.is_active r)
                          (products_tbl db)))
  /\ Sorted newer_or_same (fetchMyProducts s (Some u) myProducts db)
  /\ fetchMyProducts s None myProducts db = myProducts.
Proof.
  unfold fetchMyProducts. split; [| split; [| split]].
  - intros Hs. rewrite seller_products_select.
    eapply perm_trans; [apply order_created_at_desc_perm |].
    rewrite (filter_ext
               (fun r => String.eqb (products.seller_id r) u
                         && (products.is_active r || negb (not_seller s r)))
               (fun r => String.eqb (products.seller_id r) u)).
    + apply Permutation_refl.
    + intros r. rewrite (not_seller_of s r Hs).
      destruct (String.eqb (products.seller_id r) u);
        [rewrite orb_true_r |]; reflexivity.
  - intros Hs. rewrite seller_products_select.
    eapply perm_trans; [apply order_created_at_desc_perm |].
    rewrite (filter_ext
               (fun r => String.eqb (products.seller_id r) u
                         && (products.is_active r || negb (not_seller s r)))
               (fun r => String.eqb (products.seller_id r) u
                         && products.is_active r)).
    + apply Permutation_refl.
    + intros r.
      destruct (String.eqb_spec (products.seller_id r) u) as [E | _];
        [| reflexivity].
      simpl. assert (Hns : not_seller s r = true).
      { apply not_seller_true. rewrite E. exact Hs. }
      rewrite Hns. apply orb_false_r.
  - apply order_created_at_desc_sorted.
  - reflexivity.
Qed.

Lemma fetchMyProducts_own_and_foreign_witness :
  Permutation
    (fetchMyProducts (signed_in "u-seller") (Some "u-seller") [] market_db)
    (filter (fun r => String.eqb (products.seller_id r) "u-seller")
            (products_tbl market_db))
  /\ Permutation
       (fetchMyProducts (signed_in "u-plain") (Some "u-seller") [] market_db)
       (filter (fun r => String.eqb (products.seller_id r) "u-seller"
                         && products.is_active r)
               (products_tbl market_db)).
Proof.
  split.
  - apply (proj1 (fetchMyProducts_own_and_foreign (signed_in "u-seller")
                    "u-seller" [] market_db)).
    reflexivity.
  - apply (proj1 (proj2 (fetchMyProducts_own_and_foreign
                           (signed_in "u-plain") "u-seller" [] market_db))).
    discriminate.
Defined.

(** ** The effect of add-to-cart *)

Lemma products_constraints_set_quantity (db : database)
      (tbl : list products.row) (q : Z) (sel : products.row -> bool) :
  products_constraints db tbl = Ok tt ->
  (forall r, In r tbl -> sel r = true -> int4_ok q = true) ->
  products_constraints db
    (map (fun r => if sel r then set_quantity q r else r) tbl) = Ok tt.
Proof.
  intros Hc Hq. apply products_constraints_ok in Hc
    as [H1 [H2 [H3 [H4 H5]]]].
  rewrite forallb_forall in H1, H2, H4, H5.
  apply products_constraints_ok.
  split; [| split; [| split; [| split]]].
  - apply forallb_forall. intros r' Hin.
    apply in_map_iff in Hin as [r [<- Hin]].
    destruct (sel r); [simpl |]; auto.
  - apply forallb_forall. intros r' Hin.
    apply in_map_iff in Hin as [r [<- Hin]].
    destruct (sel r) eqn:Hsel; [simpl; eauto | auto].
  - rewrite map_map.
    rewrite (map_ext (fun r => products.id (if sel r then set_quantity q r
                                            else r)) products.id);
      [exact H3 |].
    intros r. destruct (sel r); reflexivity.
  - apply forallb_forall. intros r' Hin.
    apply in_map_iff in Hin as [r [<- Hin]].
    destruct (sel r); [simpl |]; auto.
  - apply forallb_forall. intros r' Hin.
    apply in_map_iff in Hin as [r [<- Hin]].
    destruct (sel r); [simpl |]; auto.
Qed.

(** The quantity update, on a database whose products meet their
    constraints: the rows with the given id that belong to the requesting
    identity get the new quantity, all others stay. *)
Lemma run_quantity_update_effect (s : session) (u : quantity_update)
      (db : database) :
  products_sound db ->
  (forall r, In r (products_tbl db) ->
             products.id r = eq_id u ->
             auth_uid s = Some (products.seller_id r) ->
             int4_ok (new_quantity u) = true) ->
  run_quantity_update s u db
  = Ok (with_products db
          (map (fun r => if String.eqb (products.id r) (eq_id u)
                            && negb (not_seller s r)
                         then set_quantity (new_quantity u) r else r)
               (products_tbl db))).
Proof.
  intros Hsound Hq. unfold run_quantity_update, products_mutate, rls_mutate.
  rewrite (rls_update_map "products" products_policies s
             (fun r => String.eqb (products.id r) (eq_id u))
             (set_quantity (new_quantity u))).
  - assert (Hmap :
      map (fun r =>
             if targets products_policies s UPDATE
                  (fun r0 => String.eqb (products.id r0) (eq_id u)) r
             then set_quantity (new_quantity u) r else r) (products_tbl db)
      = map (fun r => if String.eqb (products.id r) (eq_id u)
                         && negb (not_seller s r)
                      then set_quantity (new_quantity u) r else r)
            (products_tbl db)).
    { apply map_ext. intros r. unfold targets.
      rewrite products_select_policy.
      rewrite (proj1 (products_write_policy s r (c:=UPDATE)
                        ltac:(discriminate))).
      destruct (products.is_active r), (not_seller s r),
        (String.eqb (products.id r) (eq_id u)); reflexivity. }
    rewrite Hmap. simpl.
    rewrite products_constraints_set_quantity; [reflexivity | exact Hsound |].
    intros r Hin Hsel. apply andb_true_iff in Hsel as [Hid Hown].
    apply (Hq r Hin).
    + apply String.eqb_eq. exact Hid.
    + apply not_seller_false. apply negb_true_false. exact Hown.
  - intros r _ Ht. unfold targets in Ht.
    rewrite (proj1 (products_write_policy s r (c:=UPDATE)
                      ltac:(discriminate))) in Ht.
    rewrite (proj2 (products_write_policy s (set_quantity (new_quantity u) r)
                      (c:=UPDATE) ltac:(discriminate))).
    rewrite products_select_policy.
    apply andb_true_iff in Ht as [Ht _]. apply andb_true_iff in Ht as [_ Ht].
    change (not_seller s (set_quantity (new_quantity u) r))
      with (not_seller s r).
    rewrite Ht. simpl. apply orb_true_r.
Qed.

(** X9.  Add-to-cart requested by the seller of the product, on a database
    whose products meet their constraints: when the product is in the cached
    list with a quantity other than 0, the call reports success, the row
    with that id gets the cached quantity minus 1 whatever quantity it had,
    every other row stays, and the cached list becomes the fresh list of
    active products. *)
Theorem add_to_cart_effect
        (s : session) (products : list products.row) (productId : uuid)
        (db : database) (p : products.row) :
  products_sound db ->
  find (fun x => String.eqb (products.id x) productId) products = Some p ->
  products.quantity p <> 0 ->
  int4_ok (products.quantity p - 1) = true ->
  let out := handleAddToCart s products productId db in
  cart_toast out = Added_to_cart (products.name p)
  /\ cart_db out
     = with_products db
         (map (fun r => if String.eqb (products.id r) productId
                           && negb (not_seller s r)
                        then set_quantity (products.quantity p - 1) r
                        else r)
              (products_tbl db))
  /\ cart_products out = fetchProducts s (cart_db out).
Proof.
  intros Hsound Hfind Hq Hrange out. subst out. unfold handleAddToCart.
  rewrite Hfind.
  destruct (Z.eqb_spec (products.quantity p) 0) as [E | _];
    [contradiction |].
  unfold transaction.
  rewrite (run_quantity_update_effect s
             {| new_quantity := products.quantity p - 1;
                eq_id := productId |} Hsound).
  - simpl. repeat split.
  - intros r _ _ _. exact Hrange.
Qed.

Lemma add_to_cart_effect_witness :
  let out :=
    handleAddToCart (signed_in "u-seller") [lamp] "p-lamp" market_db in
  cart_toast out = Added_to_cart "Lamp"
  /\ cart_db out
     = with_products market_db
         (map (fun r => if String.eqb (products.id r) "p-lamp"
                           && negb (not_seller (signed_in "u-seller") r)
                        then set_quantity (products.quantity lamp - 1) r
                        else r)
              (products_tbl market_db))
  /\ cart_products out = fetchProducts (signed_in "u-seller") (cart_db out).
Proof.
  apply (@add_to_cart_effect (signed_in "u-seller") [lamp] "p-lamp" market_db
           lamp).
  - reflexivity.
  - reflexivity.
  - discriminate.
  - reflexivity.
Defined.

(** X10.  Add-to-cart requested by an identity that sells none of the
    products (a buyer): when the product is in the cached list with a
    quantity other than 0, the update is issued and the call reports
    success, yet the policies let the update reach no row and the database
    is the one before the call. *)
Theorem add_to_cart_by_buyer_writes_nothing
        (s : session) (products : list products.row) (productId : uuid)
        (db : database) (p : products.row) :
  products_sound db ->
  (forall r, In r (products_tbl db) ->
             auth_uid s <> Some (products.seller_id r)) ->
  find (fun x => String.eqb (products.id x) productId) products = Some p ->
  products.quantity p <> 0 ->
  let out := handleAddToCart s products productId db in
  cart_toast out = Added_to_cart (products.name p)
  /\ cart_update out
     = Some {| new_quantity := products.quantity p - 1; eq_id := productId |}
  /\ cart_db out = db.
Proof.
  intros Hsound Hbuyer Hfind Hq out. subst out. unfold handleAddToCart.
  rewrite Hfind.
  destruct (Z.eqb_spec (products.quantity p) 0) as [E | _];
    [contradiction |].
  unfold transaction.
  rewrite (run_quantity_update_effect s
             {| new_quantity := products.quantity p - 1;
                eq_id := productId |} Hsound).
  - simpl. split; [reflexivity |]. split; [reflexivity |].
    etransitivity; [| apply with_products_same]. f_equal.
    etransitivity; [| apply map_id].
    apply map_ext_in. intros r Hin.
    assert (Hns : not_seller s r = true)
      by (apply not_seller_true; apply Hbuyer; exact Hin).
    rewrite Hns, andb_false_r. reflexivity.
  - intros r Hin _ Hown. exfalso. exact (Hbuyer r Hin Hown).
Qed.

Lemma add_to_cart_by_buyer_writes_nothing_witness :
  let out :=
    handleAddToCart (signed_in "u-plain") [lamp] "p-lamp" market_db in
  cart_toast out = Added_to_cart "Lamp"
  /\ cart_update out
     = Some {| new_quantity := products.quantity lamp - 1;
               eq_id := "p-lamp" |}
  /\ cart_db out = market_db.
Proof.
  apply (@add_to_cart_by_buyer_writes_nothing (signed_in "u-plain") [lamp]
           "p-lamp" market_db lamp).
  - reflexivity.
  - intros r [<- | [<- | []]]; discriminate.
  - reflexivity.
  - discriminate.
Defined.

(** ** The card and the handler *)

Lemma find_by_unique_id (p : products.row) (l : list products.row) :
  In p l ->
  unique_ids (map products.id l) = true ->
  find (fun x => String.eqb (products.id x) (products.id p)) l = Some p.
Proof.
  induction l as [| a l IH]; simpl; [intros [] |].
  intros Hin Hu. apply andb_true_iff in Hu as [Ha Hl].
  apply negb_true_iff in Ha.
  destruct (String.eqb_spec (products.id a) (products.id p)) as [E | Hne].
  - destruct Hin as [-> | Hin]; [reflexivity |].
    exfalso. assert (H : has_id (products.id a) (map products.id l) = true).
    { apply has_id_In. rewrite E. apply in_map. exact Hin. }
    congruence.
  - destruct Hin as [-> | Hin]; [contradiction |]. auto.
Qed.

(** X11.  The card and the handler agree on a list without repeated ids.
    When the button of a product's card is disabled (quantity 0), a call of
    the handler for that product would issue nothing and change nothing;
    when the button is enabled, the call issues the update to the cached
    quantity minus 1.  A card whose badge says that the product is in stock
    has an enabled button.  For a negative quantity the badge reads
    "Out of stock" while the button, when it is shown, is enabled. *)
Theorem card_button_matches_handler
        (s : session) (products : list products.row) (db : database)
        (p : products.row) (showAddToCart : option bool) :
  In p products ->
  unique_ids (map products.id products) = true ->
  let card := ProductCard p showAddToCart in
  let out := handleAddToCart s products (products.id p) db in
  (card_button_disabled card = Some true ->
   cart_update out = None /\ cart_toast out = Product_unavailable
   /\ cart_db out = db)
  /\ (card_button_disabled card = Some false ->
      cart_update out
      = Some {| new_quantity := products.quantity p - 1;
                eq_id := products.id p |})
  /\ (card_badge card = badge_default ->
      card_button_disabled card <> Some true)
  /\ (products.quantity p < 0 ->
      card_badge card = badge_destructive
      /\ card_badge_text card = "Out of stock"
      /\ (coalesce showAddToCart true = true ->
          card_button_disabled card = Some false)).
Proof.
  intros Hin Hu card out. subst card out.
  unfold handleAddToCart, ProductCard. simpl.
  rewrite (find_by_unique_id p products Hin Hu).
  split; [| split; [| split]].
  - destruct (coalesce showAddToCart true); [| discriminate].
    intros H. injection H as ->. repeat split.
  - destruct (coalesce showAddToCart true); [| discriminate].
    intros H. injection H as ->. unfold transaction.
    destruct (run_quantity_update s _ db); reflexivity.
  - destruct (Z.ltb_spec 0 (products.quantity p)) as [Hpos | _];
      [| discriminate].
    intros _. destruct (coalesce showAddToCart true); [| discriminate].
    destruct (Z.eqb_spec (products.quantity p) 0) as [E | _];
      [lia | discriminate].
  - intros Hneg.
    destruct (Z.ltb_spec 0 (products.quantity p)) as [Hpos | _]; [lia |].
    split; [reflexivity |]. split; [reflexivity |].
    intros ->.
    destruct (Z.eqb_spec (products.quantity p) 0) as [E | _];
      [lia | reflexivity].
Qed.

Lemma card_button_matches_handler_witness :
  card_button_disabled (ProductCard lamp None) = Some false
  /\ cart_update (handleAddToCart (signed_in "u-plain") [lamp]
                    (products.id lamp) market_db)
     = Some {| new_quantity := products.quantity lamp - 1;
               eq_id := products.id lamp |}.
Proof.
  split; [reflexivity |].
  apply (@card_button_matches_handler (signed_in "u-plain") [lamp] market_db
           lamp None).
  - left. reflexivity.
  - reflexivity.
  - reflexivity.
Defined.

(** X12.  The dashboard offers the add-to-cart button to buyers only.  For a
    profile with the role buyer every card of the marketplace has the
    button, disabled exactly when the quantity is 0, and there is no seller
    section.  For a seller, and while no profile is loaded, no card has the
    button; the seller section shows for a seller only, and its cards never
    have the button. *)
Theorem dashboard_buttons_for_buyers_only
        (profile_role : option user_role)
        (products myProducts : list products.row) :
  let view := Dashboard profile_role products myProducts in
  (profile_role = Some buyer ->
   map card_button_disabled (marketplace view)
   = map (fun p => Some (products.quantity p =? 0)) products
   /\ my_products_section view = None)
  /\ (profile_role <> Some buyer ->
      Forall (fun c => card_button_disabled c = None) (marketplace view))
  /\ (profile_role <> Some seller -> my_products_section view = None)
  /\ (profile_role = Some seller ->
      exists cards,
        my_products_section view = Some cards
        /\ map card_title cards = map products.name myProducts
        /\ Forall (fun c => card_button_disabled c = None) cards).
Proof.
  intros view. subst view. unfold Dashboard. simpl.
  split; [| split; [| split]].
  - intros ->. simpl. split; [| reflexivity].
    rewrite map_map. reflexivity.
  - intros Hne. apply Forall_forall. intros c Hc.
    apply in_map_iff in Hc as [p [<- _]].
    destruct profile_role as [[|] |]; try reflexivity. contradiction.
  - intros Hne. destruct profile_role as [[|] |]; try reflexivity.
    contradiction.
  - intros ->. simpl. eexists. split; [reflexivity |]. split.
    + rewrite map_map. reflexivity.
    + apply Forall_forall. intros c Hc.
      apply in_map_iff in Hc as [p [<- _]]. reflexivity.
Qed.

Lemma dashboard_buttons_for_buyers_only_witness :
  map card_button_disabled
      (marketplace (Dashboard (Some buyer) [lamp] []))
  = map (fun p => Some (products.quantity p =? 0)) [lamp]
  /\ my_products_section (Dashboard (Some buyer) [lamp] []) = None.
Proof.
  apply (proj1 (dashboard_buttons_for_buyers_only (Some buyer) [lamp] [])).
  reflexivity.
Defined.

(** ** Texts *)

Lemma append_assoc (a b c : string) : (a ++ b) ++ c = a ++ (b ++ c).
Proof. induction a as [| x a IH]; simpl; [| rewrite IH]; reflexivity. Qed.

Lemma append_nil_r (a : string) : a ++ "" = a.
Proof. induction a as [| x a IH]; simpl; [| rewrite IH]; reflexivity. Qed.

Lemma occurs_app (c : ascii) (a b : string) :
  occurs c (a ++ b) = occurs c a || occurs c b.
Proof.
  induction a as [| x a IH]; simpl; [reflexivity |].
  rewrite IH. apply orb_assoc.
Qed.

Lemma split_pop_clean (sep : ascii) (s acc : string) :
  occurs sep acc = false -> occurs sep (split_pop sep acc s) = false.
Proof.
  revert acc. induction s as [| c s IH]; simpl; intros acc Hacc.
  - exact Hacc.
  - destruct (Ascii.eqb c sep) eqn:E.
    + apply IH. reflexivity.
    + apply IH. rewrite occurs_app, Hacc. simpl. rewrite E. reflexivity.
Qed.

Lemma split_pop_whole (sep : ascii) (s acc : string) :
  occurs sep s = false -> split_pop sep acc s = acc ++ s.
Proof.
  revert acc. induction s as [| c s IH]; simpl; intros acc Hs.
  - symmetry. apply append_nil_r.
  - apply orb_false_iff in Hs as [Hc Hs]. rewrite Hc.
    rewrite (IH _ Hs). apply append_assoc.
Qed.

Lemma split_pop_after (sep : ascii) (base ext acc : string) :
  split_pop sep acc (base ++ String sep ext) = split_pop sep "" ext.
Proof.
  revert acc. induction base as [| c base IH]; simpl; intros acc.
  - rewrite Ascii.eqb_refl. reflexivity.
  - destruct (Ascii.eqb c sep); apply IH.
Qed.

(** X13.  The extension that [uploadImage] takes from a file name holds no
    dot; it is what follows the last dot of the name, and the whole name
    when the name has no dot (so a file called "photo" is stored under a
    path that ends in ".photo"). *)
Theorem file_extension_is_last_segment (name : string) :
  occurs "."%char (split_pop "."%char "" name) = false
  /\ (occurs "."%char name = false -> split_pop "."%char "" name = name)
  /\ (forall base ext,
         name = base ++ String "."%char ext ->
         occurs "."%char ext = false ->
         split_pop "."%char "" name = ext).
Proof.
  split; [| split].
  - apply split_pop_clean. reflexivity.
  - intros H. rewrite (split_pop_whole _ _ "" H). reflexivity.
  - intros base ext -> Hext. rewrite split_pop_after.
    rewrite (split_pop_whole _ _ "" Hext). reflexivity.
Qed.

Lemma file_extension_is_last_segment_witness :
  split_pop "."%char "" "photo" = "photo"
  /\ split_pop "."%char "" "desk.front.png" = "png".
Proof.
  split.
  - apply (proj1 (proj2 (file_extension_is_last_segment "photo"))).
    reflexivity.
  - apply (proj2 (proj2 (file_extension_is_last_segment "desk.front.png"))
             "desk.front" "png"); reflexivity.
Defined.

(** ** Storage objects *)

Lemma split_on_first (sep : ascii) (u rest acc : string) :
  occurs sep u = false ->
  split_on sep acc (u ++ String sep rest)
  = (acc ++ u) :: split_on sep "" rest.
Proof.
  revert acc. induction u as [| c u IH]; simpl; intros acc Hu.
  - rewrite Ascii.eqb_refl, append_nil_r. reflexivity.
  - apply orb_false_iff in Hu as [Hc Hu]. rewrite Hc.
    rewrite (IH _ Hu), append_assoc. reflexivity.
Qed.

Lemma split_on_not_nil (sep : ascii) (s acc : string) :
  split_on sep acc s <> [].
Proof.
  revert acc. induction s as [| c s IH]; simpl; intros acc.
  - discriminate.
  - destruct (Ascii.eqb c sep); [discriminate | apply IH].
Qed.

(** The first folder of a path that starts with a text free of slashes and a
    slash is that text. *)
Lemma first_folder_of_path (u rest : string) :
  occurs "/"%char u = false ->
  first_folder (u ++ String "/"%char rest) = Some u.
Proof.
  intros Hu. unfold first_folder, foldername.
  rewrite (split_on_first _ _ rest "" Hu). simpl.
  destruct (split_on "/"%char "" rest) eqn:E.
  - exfalso. exact (split_on_not_nil _ _ _ E).
  - reflexivity.
Qed.

(** What the policies of [storage.objects] come to. *)
Lemma storage_owner_policy (s : session) (c : command)
      (r : storage_objects.row) :
  c = UPDATE \/ c = DELETE ->
  passes_using storage_policies s c r
  = String.eqb (storage_objects.bucket_id r) "product-images"
    && negb (not_folder_owner s r).
Proof.
  intros [-> | ->];
    unfold passes_using, storage_policies, applies, using_holds,
      not_folder_owner, in_product_images, sql_eq, sql_and, is_true; simpl;
    rewrite negb_involutive;
    destruct (String.eqb (storage_objects.bucket_id r) "product-images"),
      (auth_uid s), (first_folder (storage_objects.name r));
    simpl; try reflexivity;
    match goal with
    | |- context [String.eqb ?a ?b] => destruct (String.eqb a b); reflexivity
    end.
Qed.

Lemma storage_update_check (s : session) (r : storage_objects.row) :
  passes_check storage_policies s UPDATE r
  = String.eqb (storage_objects.bucket_id r) "product-images"
    && negb (not_folder_owner s r).
Proof.
  rewrite <- (storage_owner_policy s r (c:=UPDATE)) by (left; reflexivity).
  reflexivity.
Qed.

(** X14.  An image that [uploadImage] stores for a user lies in the folder
    named by the id of that user, and the policies let exactly that
    identity update or delete it (ids hold no slash). *)
Theorem uploaded_image_belongs_to_uploader
        (getPublicUrl : string -> string -> string)
        (u : uuid) (date_now : Z) (file : File.t)
        (response : upload_response) (s : session) :
  occurs "/"%char u = false ->
  let object :=
    {| storage_objects.bucket_id := "product-images";
       storage_objects.name :=
         fst (uploadImage getPublicUrl (Some u) date_now file response) |} in
  first_folder (storage_objects.name object) = Some u
  /\ (passes_using storage_policies s UPDATE object = true
      <-> auth_uid s = Some u)
  /\ (passes_using storage_policies s DELETE object = true
      <-> auth_uid s = Some u).
Proof.
  intros Hu object.
  assert (Hname : first_folder (storage_objects.name object) = Some u).
  { subst object. unfold uploadImage. simpl.
    destruct response; simpl; apply (first_folder_of_path _ _ Hu). }
  split; [exact Hname |].
  assert (Howner : negb (not_folder_owner s object) = true
                   <-> auth_uid s = Some u).
  { unfold not_folder_owner. rewrite Hname, negb_involutive.
    unfold sql_eq, is_true. destruct (auth_uid s) as [v |].
    - destruct (String.eqb_spec v u) as [-> | Hne]; split; intros H;
        try reflexivity; try discriminate.
      injection H as H. contradiction.
    - split; discriminate. }
  split.
  - rewrite (storage_owner_policy s object (c:=UPDATE))
      by (left; reflexivity).
    exact Howner.
  - rewrite (storage_owner_policy s object (c:=DELETE))
      by (right; reflexivity).
    exact Howner.
Qed.

Lemma uploaded_image_belongs_to_uploader_witness :
  first_folder
    (fst (uploadImage sample_public_url (Some "u-seller") 1700000000000
            desk_photo Upload_stored))
  = Some "u-seller".
Proof.
  apply (@uploaded_image_belongs_to_uploader sample_public_url "u-seller"
           1700000000000 desk_photo Upload_stored anonymous).
  reflexivity.
Defined.

(** X15.  Uploading and reading.  An insert into [storage.objects] passes
    for every signed-in identity and every object name of the bucket
    product-images, the folder of another identity included, and for no
    anonymous request and no other bucket.  A select returns the objects of
    that bucket to everyone and no object of another bucket. *)
Theorem storage_upload_and_read
        (s : session) (object : storage_objects.row)
        (where_ : storage_objects.row -> bool)
        (tbl : list storage_objects.row) :
  (rls_insert "objects" storage_policies s object tbl
   = Ok (tbl ++ [object])%list
   <-> storage_objects.bucket_id object = "product-images"
       /\ auth_role s = authenticated)
  /\ (rls_insert "objects" storage_policies s object tbl
      = Ok (tbl ++ [object])%list
      \/ rls_insert "objects" storage_policies s object tbl
         = Raise (rls_violation "objects"))
  /\ rls_select storage_policies s where_ tbl
     = filter (fun r => String.eqb (storage_objects.bucket_id r)
                                   "product-images" && where_ r) tbl.
Proof.
  assert (Hcheck : passes_check storage_policies s INSERT object
                   = String.eqb (storage_objects.bucket_id object)
                                "product-images"
                     && db_role_eqb (auth_role s) authenticated).
  { unfold passes_check, storage_policies, applies, check_holds,
      in_product_images, sql_eq, sql_and, is_true. simpl.
    destruct (String.eqb (storage_objects.bucket_id object)
                         "product-images"),
      (db_role_eqb (auth_role s) authenticated); reflexivity. }
  unfold rls_insert. rewrite Hcheck. split; [| split].
  - destruct (String.eqb_spec (storage_objects.bucket_id object)
                              "product-images") as [E | Hne]; simpl.
    + destruct (auth_role s); simpl; split;
        try discriminate; try (intros [_ H]; discriminate); auto.
    + split; [discriminate | intros [E _]; contradiction].
  - destruct (String.eqb (storage_objects.bucket_id object)
                         "product-images"
              && db_role_eqb (auth_role s) authenticated); simpl; auto.
  - unfold rls_select. apply filter_ext. intros r. f_equal.
    unfold passes_using, storage_policies, applies, using_holds,
      in_product_images, sql_eq, is_true. simpl.
    destruct (String.eqb (storage_objects.bucket_id r) "product-images");
      reflexivity.
Qed.

Lemma storage_upload_and_read_witness :
  rls_insert "objects" storage_policies (signed_in "u-plain")
    {| storage_objects.bucket_id := "product-images";
       storage_objects.name := "u-seller/intruder.png" |}
    [photo_of_seller]
  = Ok [photo_of_seller;
        {| storage_objects.bucket_id := "product-images";
           storage_objects.name := "u-seller/intruder.png" |}].
Proof.
  apply (proj1 (storage_upload_and_read (signed_in "u-plain")
                  {| storage_objects.bucket_id := "product-images";
                     storage_objects.name := "u-seller/intruder.png" |}
                  (fun _ => true) [photo_of_seller])).
  split; reflexivity.
Defined.

(** X16.  No update and no delete on [storage.objects] reaches an object
    outside the folder of the requesting identity or outside the bucket
    product-images: those objects are in the table afterwards as they were
    before, and an update cannot move an object into that set. *)
Theorem storage_objects_of_others_kept
        (s : session) (where_ : storage_objects.row -> bool)
        (set : storage_objects.row -> storage_objects.row)
        (tbl : list storage_objects.row) :
  let other r :=
    negb (String.eqb (storage_objects.bucket_id r) "product-images"
          && negb (not_folder_owner s r)) in
  (forall tbl',
      rls_update "objects" storage_policies s where_ set tbl = Ok tbl' ->
      filter other tbl' = filter other tbl)
  /\ filter other (rls_delete storage_policies s where_ tbl)
     = filter other tbl.
Proof.
  intros other. split.
  - intros tbl' H.
    eapply rls_update_others; [| | exact H].
    + intros r Hr.
      rewrite (storage_owner_policy s r (c:=UPDATE)) in Hr
        by (left; reflexivity).
      unfold other. rewrite Hr. reflexivity.
    + intros r Hr. rewrite storage_update_check in Hr.
      unfold other. rewrite Hr. reflexivity.
  - apply rls_delete_others. intros r Hr.
    rewrite (storage_owner_policy s r (c:=DELETE)) in Hr
      by (right; reflexivity).
    unfold other. rewrite Hr. reflexivity.
Qed.

Lemma storage_objects_of_others_kept_witness :
  let other r :=
    negb (String.eqb (storage_objects.bucket_id r) "product-images"
          && negb (not_folder_owner (signed_in "u-plain") r)) in
  filter other [photo_of_seller; move_object photo_of_buyer]
  = filter other [photo_of_seller; photo_of_buyer].
Proof.
  apply (proj1 (storage_objects_of_others_kept (signed_in "u-plain")
                  (fun _ => true) move_object
                  [photo_of_seller; photo_of_buyer])).
  reflexivity.
Defined.

(** ** Adding a product *)

Lemma products_insert_constraints (s : session) (new : products.row)
      (db db' : database) :
  products_mutate s (Insert new) db = Ok db' ->
  auth_uid s = Some (products.seller_id new)
  /\ products_constraints db (products_tbl db ++ [new]) = Ok tt
  /\ db' = with_products db (products_tbl db ++ [new]).
Proof.
  unfold products_mutate, rls_mutate, rls_insert. intros H.
  destruct (passes_check products_policies s INSERT new) eqn:Hc;
    simpl in H; [| discriminate].
  destruct (products_constraints db (products_tbl db ++ [new])) as [u |]
    eqn:Hk; simpl in H; [| discriminate].
  injection H as <-. split; [| split; [destruct u |]; reflexivity].
  rewrite (proj2 (products_write_policy s new (c:=INSERT)
                    ltac:(discriminate))) in Hc.
  apply not_seller_false. apply negb_true_false. exact Hc.
Qed.

(** An insert goes through for a row that carries the id of the requesting
    identity as seller and fits the constraints next to the rows that are
    there. *)
Lemma products_insert_accepted (s : session) (new : products.row)
      (db : database) :
  products_sound db ->
  auth_uid s = Some (products.seller_id new) ->
  numeric_10_2_ok (products.price new) = true ->
  int4_ok (products.quantity new) = true ->
  has_id (products.id new) (map products.id (products_tbl db)) = false ->
  has_id (products.seller_id new) (map auth_users.id (users db)) = true ->
  category_exists db (products.category_id new) = true ->
  products_mutate s (Insert new) db
  = Ok (with_products db (products_tbl db ++ [new])).
Proof.
  intros Hsound Hs Hp Hq Hid Hseller Hcat.
  unfold products_mutate, rls_mutate, rls_insert.
  rewrite (proj2 (products_write_policy s new (c:=INSERT)
                    ltac:(discriminate))).
  rewrite (not_seller_of s new Hs), String.eqb_refl. simpl.
  apply products_constraints_ok in Hsound as [H1 [H2 [H3 [H4 H5]]]].
  assert (Hk : products_constraints db (products_tbl db ++ [new]) = Ok tt).
  { apply products_constraints_ok. rewrite !forallb_app, map_app. simpl.
    rewrite unique_ids_app_last, H1, H2, H3, H4, H5, Hp, Hq, Hid, Hseller,
      Hcat. auto. }
  rewrite Hk. reflexivity.
Qed.

(** With a user, a submission goes through when the database can take the
    row. *)
Lemma handleSubmit_goes_through
      (number : Type) (parseFloat parseInt : string -> number)
      (numeric_10_2_in int4_in : number -> result Z)
      (getPublicUrl : string -> string -> string)
      (s : session) (user_id : uuid) (formData : FormData.t)
      (imageFile : option File.t) (date_now : Z)
      (response : upload_response)
      (generated_id : uuid) (now : timestamptz) (db : database)
      (price quantity : Z) :
  products_sound db ->
  auth_uid s = Some user_id ->
  has_id user_id (map auth_users.id (users db)) = true ->
  has_id generated_id (map products.id (products_tbl db)) = false ->
  numeric_10_2_in (parseFloat (FormData.price formData)) = Ok price ->
  numeric_10_2_ok price = true ->
  int4_in (parseInt (FormData.quantity formData)) = Ok quantity ->
  int4_ok quantity = true ->
  category_exists db (or_null (FormData.category_id formData)) = true ->
  let out :=
    handleSubmit parseFloat parseInt numeric_10_2_in int4_in getPublicUrl
      s (Some user_id) formData imageFile date_now response generated_id now
      db in
  submit_toast out = Some Product_added_successfully
  /\ submit_form_reset out = true
  /\ products_tbl (submit_db out)
     = (products_tbl db ++
        [ {| products.id := generated_id;
             products.seller_id := user_id;
             products.name := FormData.name formData;
             products.description := Some (FormData.description formData);
             products.price := price;
             products.quantity := quantity;
             products.category_id := or_null (FormData.category_id formData);
             products.image_url :=
               match imageFile with
               | Some file =>
                   snd (uploadImage getPublicUrl (Some user_id) date_now
                          file response)
               | None => None
               end;
             products.is_active := true;
             products.created_at := now;
             products.updated_at := now |} ])%list.
Proof.
  intros Hsound Hs Huser Hfresh Hprice Hprice_ok Hqty Hqty_ok Hcat out.
  subst out. unfold handleSubmit, transaction, run_product_insert,
    new_product_row. simpl.
  rewrite Hprice, Hqty. simpl.
  rewrite products_insert_accepted; simpl; try assumption.
  - repeat split. do 2 f_equal.
    destruct imageFile as [file |]; [| reflexivity].
    destruct (uploadImage getPublicUrl (Some user_id) date_now file
                response); reflexivity.
Qed.

(** C7.  When the upload of the image fails, by an error answer or by a
    thrown network error, [uploadImage] returns null and the submission goes
    on: the insert is issued with [image_url] null, and the database, the
    toast and the fate of the form are those of the same submission made
    with no image chosen.  Whenever the database can take the row (the user
    is the signed-in identity, the generated id is free, price and quantity
    read as numbers within the range of their columns, the category is
    empty or exists), the success toast shows and the table holds the new
    row with no image. *)
Theorem upload_failure_is_absorbed
        (number : Type) (parseFloat parseInt : string -> number)
        (numeric_10_2_in int4_in : number -> result Z)
        (getPublicUrl : string -> string -> string)
        (s : session) (user_id : uuid) (formData : FormData.t)
        (file : File.t) (date_now : Z) (response : upload_response)
        (generated_id : uuid) (now : timestamptz) (db : database) :
  response <> Upload_stored ->
  let submit :=
    handleSubmit parseFloat parseInt numeric_10_2_in int4_in getPublicUrl
      s (Some user_id) formData in
  let out := submit (Some file) date_now response generated_id now db in
  let without := submit None date_now response generated_id now db in
  snd (uploadImage getPublicUrl (Some user_id) date_now file response) = None
  /\ (exists p, submit_insert out = Some p
                /\ product_insert.image_url p = None)
  /\ submit_insert out = submit_insert without
  /\ submit_db out = submit_db without
  /\ submit_toast out = submit_toast without
  /\ submit_form_reset out = submit_form_reset without
  /\ (submit_toast out = Some Product_added_successfully ->
      exists row,
        products_tbl (submit_db out) = (products_tbl db ++ [row])%list
        /\ products.seller_id row = user_id
        /\ products.image_url row = None)
  /\ (forall price quantity,
         products_sound db ->
         auth_uid s = Some user_id ->
         has_id user_id (map auth_users.id (users db)) = true ->
         has_id generated_id (map products.id (products_tbl db)) = false ->
         numeric_10_2_in (parseFloat (FormData.price formData)) = Ok price ->
         numeric_10_2_ok price = true ->
         int4_in (parseInt (FormData.quantity formData)) = Ok quantity ->
         int4_ok quantity = true ->
         category_exists db (or_null (FormData.category_id formData))
         = true ->
         submit_toast out = Some Product_added_successfully
         /\ products_tbl (submit_db out)
            = (products_tbl db ++
               [ {| products.id := generated_id;
                    products.seller_id := user_id;
                    products.name := FormData.name formData;
                    products.description :=
                      Some (FormData.description formData);
                    products.price := price;
                    products.quantity := quantity;
                    products.category_id :=
                      or_null (FormData.category_id formData);
                    products.image_url := None;
                    products.is_active := true;
                    products.created_at := now;
                    products.updated_at := now |} ])%list).
Proof.
  intros Hfail submit out without.
  pose proof (uploadImage_failure getPublicUrl (Some user_id) date_now file
                Hfail) as Hnull.
  split; [exact Hnull |].
  destruct (handleSubmit_insert parseFloat parseInt numeric_10_2_in int4_in
              getPublicUrl s user_id formData (Some file) date_now response
              generated_id now db)
    as [p [Hp [Hseller [_ [Himage Hrow]]]]].
  fold submit in Hp, Hrow. fold out in Hp, Hrow.
  rewrite Hnull in Himage.
  split; [exists p; split; assumption |].
  assert (Hsame : submit_insert out = submit_insert without
                  /\ submit_db out = submit_db without
                  /\ submit_toast out = submit_toast without
                  /\ submit_form_reset out = submit_form_reset without).
  { subst out without submit. unfold handleSubmit.
    destruct (uploadImage getPublicUrl (Some user_id) date_now file response)
      as [path url]. simpl in Hnull. subst url. simpl.
    destruct (transaction _ db) as [db' [e |]]; simpl;
      repeat split; reflexivity. }
  destruct Hsame as [Hi [Hd [Ht Hf]]].
  split; [exact Hi |]. split; [exact Hd |]. split; [exact Ht |].
  split; [exact Hf |]. split.
  - intros Hok. destruct (Hrow Hok) as [row [Hnew Htbl]].
    destruct (new_product_row_fields _ _ _ _ _ Hnew) as [Hs [_ Hu]].
    exists row. split; [exact Htbl |].
    split; [rewrite Hs; exact Hseller | rewrite Hu; exact Himage].
  - intros price quantity Hsound Hs Huser Hfresh Hprice Hprice_ok Hqty
           Hqty_ok Hcat.
    destruct (@handleSubmit_goes_through number parseFloat parseInt
                numeric_10_2_in int4_in getPublicUrl s user_id formData
                (Some file) date_now response generated_id now db price
                quantity Hsound Hs Huser Hfresh Hprice Hprice_ok Hqty Hqty_ok
                Hcat)
      as [Htoast [_ Htbl]].
    fold submit in Htoast, Htbl. fold out in Htoast, Htbl.
    rewrite Hnull in Htbl. split; [exact Htoast | exact Htbl].
Qed.

Lemma upload_failure_is_absorbed_witness :
  let out :=
    sample_submit (signed_in "u-seller") (Some "u-seller") desk_form
      (Some desk_photo) 1700000000000 (Upload_error "Payload too large")
      "p-desk" 300 market_db in
  submit_toast out = Some Product_added_successfully
  /\ products_tbl (submit_db out)
     = [ retired_chair; lamp;
         {| products.id := "p-desk"; products.seller_id := "u-seller";
            products.name := "Desk"; products.description := Some "";
            products.price := 12000; products.quantity := 5;
            products.category_id := None; products.image_url := None;
            products.is_active := true;
            products.created_at := 300; products.updated_at := 300 |} ].
Proof.
  pose proof (@upload_failure_is_absorbed sample_number sample_parse
                sample_parse sample_numeric_in sample_int4_in
                sample_public_url (signed_in "u-seller") "u-seller" desk_form
                desk_photo 1700000000000 (Upload_error "Payload too large")
                "p-desk" 300 market_db ltac:(discriminate)) as H.
  destruct H as [_ [_ [_ [_ [_ [_ [_ Hgoes]]]]]]].
  exact (Hgoes 12000 5 eq_refl eq_refl eq_refl eq_refl eq_refl eq_refl
               eq_refl eq_refl eq_refl).
Defined.

(** C10.  A submission whose category field is the empty text issues the
    insert with [category_id] null.  Whenever the database can take the row
    (the user is the signed-in identity, the generated id is free, price and
    quantity read as numbers within the range of their columns), the
    success toast shows and the row added has no category; in any case a
    row that the submission adds has none. *)
Theorem empty_category_is_null
        (number : Type) (parseFloat parseInt : string -> number)
        (numeric_10_2_in int4_in : number -> result Z)
        (getPublicUrl : string -> string -> string)
        (s : session) (user_id : uuid) (formData : FormData.t)
        (imageFile : option File.t) (date_now : Z)
        (response : upload_response)
        (generated_id : uuid) (now : timestamptz) (db : database) :
  FormData.category_id formData = "" ->
  let out :=
    handleSubmit parseFloat parseInt numeric_10_2_in int4_in getPublicUrl
      s (Some user_id) formData imageFile date_now response generated_id now
      db in
  (exists p, submit_insert out = Some p
             /\ product_insert.category_id p = None)
  /\ (submit_toast out = Some Product_added_successfully ->
      exists row,
        products_tbl (submit_db out) = (products_tbl db ++ [row])%list
        /\ products.category_id row = None)
  /\ (forall price quantity,
         products_sound db ->
         auth_uid s = Some user_id ->
         has_id user_id (map auth_users.id (users db)) = true ->
         has_id generated_id (map products.id (products_tbl db)) = false ->
         numeric_10_2_in (parseFloat (FormData.price formData)) = Ok price ->
         numeric_10_2_ok price = true ->
         int4_in (parseInt (FormData.quantity formData)) = Ok quantity ->
         int4_ok quantity = true ->
         submit_toast out = Some Product_added_successfully
         /\ products_tbl (submit_db out)
            = (products_tbl db ++
               [ {| products.id := generated_id;
                    products.seller_id := user_id;
                    products.name := FormData.name formData;
                    products.description :=
                      Some (FormData.description formData);
                    products.price := price;
                    products.quantity := quantity;
                    products.category_id := None;
                    products.image_url :=
                      match imageFile with
                      | Some file =>
                          snd (uploadImage getPublicUrl (Some user_id)
                                 date_now file response)
                      | None => None
                      end;
                    products.is_active := true;
                    products.created_at := now;
                    products.updated_at := now |} ])%list).
Proof.
  intros Hempty out.
  destruct (handleSubmit_insert parseFloat parseInt numeric_10_2_in int4_in
              getPublicUrl s user_id formData imageFile date_now response
              generated_id now db)
    as [p [Hp [_ [Hcat [_ Hrow]]]]].
  fold out in Hp, Hrow. rewrite Hempty in Hcat. simpl in Hcat.
  split; [exists p; split; assumption |]. split.
  - intros Hok. destruct (Hrow Hok) as [row [Hnew Htbl]].
    destruct (new_product_row_fields _ _ _ _ _ Hnew) as [_ [Hc _]].
    exists row. split; [exact Htbl | rewrite Hc; exact Hcat].
  - intros price quantity Hsound Hs Huser Hfresh Hprice Hprice_ok Hqty
           Hqty_ok.
    assert (Hnone : category_exists db
                      (or_null (FormData.category_id formData)) = true)
      by (rewrite Hempty; reflexivity).
    destruct (@handleSubmit_goes_through number parseFloat parseInt
                numeric_10_2_in int4_in getPublicUrl s user_id formData
                imageFile date_now response generated_id now db price
                quantity Hsound Hs Huser Hfresh Hprice Hprice_ok Hqty Hqty_ok
                Hnone)
      as [Htoast [_ Htbl]].
    fold out in Htoast, Htbl. rewrite Hempty in Htbl.
    split; [exact Htoast | exact Htbl].
Qed.

Lemma empty_category_is_null_witness :
  let out :=
    sample_submit (signed_in "u-seller") (Some "u-seller") desk_form None
      1700000000000 Upload_stored "p-desk" 300 market_db in
  submit_toast out = Some Product_added_successfully
  /\ products_tbl (submit_db out)
     = [ retired_chair; lamp;
         {| products.id := "p-desk"; products.seller_id := "u-seller";
            products.name := "Desk"; products.description := Some "";
            products.price := 12000; products.quantity := 5;
            products.category_id := None; products.image_url := None;
            products.is_active := true;
            products.created_at := 300; products.updated_at := 300 |} ].
Proof.
  pose proof (@empty_category_is_null sample_number sample_parse sample_parse
                sample_numeric_in sample_int4_in sample_public_url
                (signed_in "u-seller") "u-seller" desk_form None
                1700000000000 Upload_stored "p-desk" 300 market_db eq_refl)
    as H.
  destruct H as [_ [_ Hgoes]].
  exact (Hgoes 12000 5 eq_refl eq_refl eq_refl eq_refl eq_refl eq_refl
               eq_refl eq_refl).
Defined.

(** X17.  A submission by the signed-in user goes through when the database
    can take the row: the user is an identity, the generated id is not
    taken, price and quantity read as numbers within the range of their
    columns, and the category is left empty or exists.  Then the success
    toast shows, the form is cleared, and the table has one more row: the
    form's values under the user's id, active, with both timestamps at the
    time of the insert.  The profile's role plays no part. *)
Theorem submission_accepted
        (number : Type) (parseFloat parseInt : string -> number)
        (numeric_10_2_in int4_in : number -> result Z)
        (getPublicUrl : string -> string -> string)
        (s : session) (user_id : uuid) (formData : FormData.t)
        (imageFile : option File.t) (date_now : Z)
        (response : upload_response)
        (generated_id : uuid) (now : timestamptz) (db : database)
        (price quantity : Z) :
  products_sound db ->
  auth_uid s = Some user_id ->
  has_id user_id (map auth_users.id (users db)) = true ->
  has_id generated_id (map products.id (products_tbl db)) = false ->
  numeric_10_2_in (parseFloat (FormData.price formData)) = Ok price ->
  numeric_10_2_ok price = true ->
  int4_in (parseInt (FormData.quantity formData)) = Ok quantity ->
  int4_ok quantity = true ->
  category_exists db (or_null (FormData.category_id formData)) = true ->
  let out :=
    handleSubmit parseFloat parseInt numeric_10_2_in int4_in getPublicUrl
      s (Some user_id) formData imageFile date_now response generated_id now
      db in
  submit_toast out = Some Product_added_successfully
  /\ submit_form_reset out = true
  /\ submit_db out
     = with_products db
         (products_tbl db ++
          [ {| products.id := generated_id;
               products.seller_id := user_id;
               products.name := FormData.name formData;
               products.description := Some (FormData.description formData);
               products.price := price;
               products.quantity := quantity;
               products.category_id :=
                 or_null (FormData.category_id formData);
               products.image_url :=
                 match imageFile with
                 | Some file =>
                     snd (uploadImage getPublicUrl (Some user_id) date_now
                            file response)
                 | None => None
                 end;
               products.is_active := true;
               products.created_at := now;
               products.updated_at := now |} ]).
Proof.
  intros Hsound Hs Huser Hfresh Hprice Hprice_ok Hqty Hqty_ok Hcat out.
  subst out. unfold handleSubmit, transaction, run_product_insert,
    new_product_row. simpl.
  rewrite Hprice, Hqty. simpl.
  rewrite products_insert_accepted; simpl; try assumption.
  - repeat split. do 3 f_equal.
    destruct imageFile as [file |]; [| reflexivity].
    destruct (uploadImage getPublicUrl (Some user_id) date_now file
                response); reflexivity.
Qed.

Lemma submission_accepted_witness :
  let out :=
    sample_submit (signed_in "u-seller") (Some "u-seller") desk_form None
      1700000000000 Upload_stored "p-desk" 300 market_db in
  submit_toast out = Some Product_added_successfully
  /\ submit_form_reset out = true
  /\ submit_db out
     = with_products market_db
         (products_tbl market_db ++
          [ {| products.id := "p-desk"; products.seller_id := "u-seller";
               products.name := "Desk"; products.description := Some "";
               products.price := 12000; products.quantity := 5;
               products.category_id := None; products.image_url := None;
               products.is_active := true;
               products.created_at := 300; products.updated_at := 300 |} ]).
Proof.
  apply (@submission_accepted sample_number sample_parse sample_parse
           sample_numeric_in sample_int4_in sample_public_url
           (signed_in "u-seller") "u-seller" desk_form None 1700000000000
           Upload_stored "p-desk" 300 market_db 12000 5);
    reflexivity.
Defined.

(** X18.  A submission that names a category which is not in [categories]
    is refused by the foreign key at the latest: the error toast shows, the
    form keeps its values, and the database is the one before. *)
Theorem submission_with_unknown_category_refused
        (number : Type) (parseFloat parseInt : string -> number)
        (numeric_10_2_in int4_in : number -> result Z)
        (getPublicUrl : string -> string -> string)
        (s : session) (user_id : uuid) (formData : FormData.t)
        (imageFile : option File.t) (date_now : Z)
        (response : upload_response)
        (generated_id : uuid) (now : timestamptz) (db : database) :
  FormData.category_id formData <> "" ->
  has_id (FormData.category_id formData)
         (map categories.id (categories_tbl db)) = false ->
  let out :=
    handleSubmit parseFloat parseInt numeric_10_2_in int4_in getPublicUrl
      s (Some user_id) formData imageFile date_now response generated_id now
      db in
  (exists e, submit_toast out = Some (Error_adding_product e))
  /\ submit_form_reset out = false
  /\ submit_db out = db.
Proof.
  intros Hne Hmissing out. subst out. unfold handleSubmit, transaction.
  match goal with
  | |- context [run_product_insert _ _ _ _ _ ?p db] =>
      destruct (run_product_insert numeric_10_2_in int4_in s generated_id
                  now p db) as [db' | e] eqn:Hrun
  end.
  - exfalso. unfold run_product_insert in Hrun.
    apply bind_ok in Hrun as [row [Hrow Hins]].
    apply new_product_row_fields in Hrow as [_ [Hcat _]]. simpl in Hcat.
    apply products_insert_constraints in Hins as [_ [Hk _]].
    apply products_constraints_ok in Hk as [_ [_ [_ [_ Hk]]]].
    rewrite forallb_app in Hk. apply andb_true_iff in Hk as [_ Hk].
    simpl in Hk. rewrite andb_true_r, Hcat in Hk.
    unfold or_null in Hk.
    destruct (String.eqb_spec (FormData.category_id formData) "")
      as [E | _]; [contradiction |].
    simpl in Hk. congruence.
  - simpl. split; [eauto |]. split; reflexivity.
Qed.

Lemma submission_with_unknown_category_refused_witness :
  let out :=
    sample_submit (signed_in "u-seller") (Some "u-seller")
      {| FormData.name := "Desk"; FormData.description := "";
         FormData.price := "120"; FormData.quantity := "5";
         FormData.category_id := "c-gone" |}
      None 1700000000000 Upload_stored "p-desk" 300 market_db in
  (exists e, submit_toast out = Some (Error_adding_product e))
  /\ submit_form_reset out = false
  /\ submit_db out = market_db.
Proof.
  apply (@submission_with_unknown_category_refused sample_number
           sample_parse sample_parse sample_numeric_in sample_int4_in
           sample_public_url (signed_in "u-seller") "u-seller"
           {| FormData.name := "Desk"; FormData.description := "";
              FormData.price := "120"; FormData.quantity := "5";
              FormData.category_id := "c-gone" |}
           None 1700000000000 Upload_stored "p-desk" 300 market_db).
  - discriminate.
  - reflexivity.
Defined.

(** X19.  After a submission with the success toast, the refresh that
    [handleProductAdded] makes for the same user shows the new product in
    both lists of the dashboard: in the seller's own list and, the row being
    active by default, in the marketplace. *)
Theorem added_product_shows_in_both_lists
        (number : Type) (parseFloat parseInt : string -> number)
        (numeric_10_2_in int4_in : number -> result Z)
        (getPublicUrl : string -> string -> string)
        (s : session) (user_id : uuid) (formData : FormData.t)
        (imageFile : option File.t) (date_now : Z)
        (response : upload_response)
        (generated_id : uuid) (now : timestamptz) (db : database)
        (myProducts : list products.row) :
  let out :=
    handleSubmit parseFloat parseInt numeric_10_2_in int4_in getPublicUrl
      s (Some user_id) formData imageFile date_now response generated_id now
      db in
  submit_toast out = Some Product_added_successfully ->
  exists row,
    products_tbl (submit_db out) = (products_tbl db ++ [row])%list
    /\ products.id row = generated_id
    /\ In row (fst (handleProductAdded s (Some user_id) myProducts
                      (submit_db out)))
    /\ In row (snd (handleProductAdded s (Some user_id) myProducts
                      (submit_db out))).
Proof.
  intros out Hok.
  destruct (handleSubmit_insert parseFloat parseInt numeric_10_2_in int4_in
              getPublicUrl s user_id formData imageFile date_now response
              generated_id now db)
    as [p [_ [Hseller [_ [_ Hrow]]]]].
  fold out in Hrow. destruct (Hrow Hok) as [row [Hnew Htbl]].
  destruct (new_product_row_fields _ _ _ _ _ Hnew) as [Hs _].
  assert (Hshape : products.id row = generated_id
                   /\ products.is_active row = true).
  { unfold new_product_row in Hnew.
    apply bind_ok in Hnew as [pr [_ Hnew]].
    apply bind_ok in Hnew as [q [_ Hnew]].
    injection Hnew as <-. split; reflexivity. }
  destruct Hshape as [Hid Hactive].
  assert (Hin : In row (products_tbl (submit_db out))).
  { rewrite Htbl. apply in_or_app. right. left. reflexivity. }
  exists row. split; [exact Htbl |]. split; [exact Hid |].
  unfold handleProductAdded. simpl. split.
  - unfold fetchMyProducts.
    eapply Permutation_in;
      [apply Permutation_sym; apply order_created_at_desc_perm |].
    rewrite seller_products_select. apply filter_In. split; [exact Hin |].
    rewrite Hs, Hseller, String.eqb_refl, Hactive. reflexivity.
  - unfold fetchProducts.
    eapply Permutation_in;
      [apply Permutation_sym; apply order_created_at_desc_perm |].
    rewrite active_products_select.
    apply filter_In. split; [exact Hin | exact Hactive].
Qed.

Lemma added_product_shows_in_both_lists_witness :
  let out :=
    sample_submit (signed_in "u-seller") (Some "u-seller") desk_form None
      1700000000000 Upload_stored "p-desk" 300 market_db in
  exists row,
    products_tbl (submit_db out) = (products_tbl market_db ++ [row])%list
    /\ products.id row = "p-desk"
    /\ In row (fst (handleProductAdded (signed_in "u-seller")
                      (Some "u-seller") [] (submit_db out)))
    /\ In row (snd (handleProductAdded (signed_in "u-seller")
                      (Some "u-seller") [] (submit_db out))).
Proof.
  apply (@added_product_shows_in_both_lists sample_number sample_parse
           sample_parse sample_numeric_in sample_int4_in sample_public_url
           (signed_in "u-seller") "u-seller" desk_form None 1700000000000
           Upload_stored "p-desk" 300 market_db []).
  reflexivity.
Defined.

(** ** The categories of the form *)

Lemma insert_by_name_perm (text_le : string -> string -> bool)
      (c : categories.row) (l : list categories.row) :
  Permutation (insert_by_name text_le c l) (c :: l).
Proof.
  induction l as [| x l IH]; simpl; [apply Permutation_refl |].
  destruct (text_le (categories.name c) (categories.name x)).
  - apply Permutation_refl.
  - apply perm_trans with (x :: c :: l).
    + apply perm_skip. exact IH.
    + apply perm_swap.
Qed.

Lemma order_by_name_perm (text_le : string -> string -> bool)
      (l : list categories.row) :
  Permutation (order_by_name text_le l) l.
Proof.
  unfold order_by_name. induction l as [| c l IH]; simpl.
  - apply Permutation_refl.
  - apply perm_trans with (c :: fold_right (insert_by_name text_le) [] l).
    + apply insert_by_name_perm.
    + apply perm_skip. exact IH.
Qed.

(** X20.  Whatever the order of the database on names and whoever asks,
    [fetchCategories] yields the categories of the table, each once for each
    time it is there; and a category taken from that list into the form
    satisfies the foreign key of [products]. *)
Theorem fetchCategories_offers_all
        (text_le : string -> string -> bool) (s : session) (db : database) :
  Permutation (fetchCategories text_le s db) (categories_tbl db)
  /\ (forall c, In c (fetchCategories text_le s db) ->
                category_exists db (or_null (categories.id c)) = true).
Proof.
  assert (Hperm : Permutation (fetchCategories text_le s db)
                              (categories_tbl db)).
  { unfold fetchCategories.
    eapply perm_trans; [apply order_by_name_perm |].
    unfold categories_select, rls_select.
    rewrite (filter_ext _ (fun _ => true)).
    - rewrite filter_true. apply Permutation_refl.
    - intros r. rewrite categories_select_policy. reflexivity. }
  split; [exact Hperm |].
  intros c Hin. apply (Permutation_in _ Hperm) in Hin.
  unfold or_null. destruct (String.eqb (categories.id c) ""); simpl;
    [reflexivity |].
  apply has_id_In. apply in_map. exact Hin.
Qed.

Lemma fetchCategories_offers_all_witness :
  category_exists market_db (or_null "c-home") = true.
Proof.
  apply (proj2 (fetchCategories_offers_all String.leb anonymous market_db)
           {| categories.id := "c-home"; categories.name := "Home & Garden";
              categories.description :=
                Some "Home improvement and garden supplies";
              categories.created_at := 0 |}).
  left. reflexivity.
Defined.
